(** * A shallow embedding of [server.py]

    The program is a small Flask application on top of SQLite and a
    directory of uploaded photos.  The embedding keeps its shape:

    - Python strings are [string]s; a character is a code point below 256,
      and [isspace], [lower] and [upper] are Python's on that range;
    - a SQLite table is a finite map from rowid to row together with the
      [sqlite_sequence] counter that [AUTOINCREMENT] maintains; a table that
      was never created is [None];
    - the file system is a finite map from canonical absolute paths to file
      contents;
    - a handler is a computation in a state-and-exception monad over the
      world (database and file system); an exception that leaves a handler
      is turned into a 500 response by the framework;
    - what the handler reads from outside (the clock, whether a file
      operation fails) is an explicit environment. *)

From stdpp Require Import gmap strings list fin_maps sorting pretty.
From Stdlib Require Import ZArith Lia Ascii String.

Open Scope Z_scope.

(** ** Python strings *)

Module PyStr.

Definition code (c : ascii) : N := N_of_ascii c.

(** [str.isspace] on code points below 256. *)
Definition isspace (c : ascii) : bool :=
  let n := code c in
  ((9 <=? n) && (n <=? 13) || (28 <=? n) && (n <=? 32)
   || (n =? 133) || (n =? 160))%N.

Fixpoint lstrip (s : string) : string :=
  match s with
  | EmptyString => EmptyString
  | String c s' => if isspace c then lstrip s' else s
  end.

Fixpoint rstrip (s : string) : string :=
  match s with
  | EmptyString => EmptyString
  | String c s' =>
      match rstrip s' with
      | EmptyString => if isspace c then EmptyString else String c EmptyString
      | r => String c r
      end
  end.

(** [s.strip()] *)
Definition strip (s : string) : string := rstrip (lstrip s).

Fixpoint all_chars (p : ascii -> bool) (s : string) : bool :=
  match s with
  | EmptyString => true
  | String c s' => p c && all_chars p s'
  end.

Fixpoint map_chars (f : ascii -> ascii) (s : string) : string :=
  match s with
  | EmptyString => EmptyString
  | String c s' => String (f c) (map_chars f s')
  end.

(** [str.lower]: A-Z and the upper-case letters of Latin-1 (0xC0-0xDE
    without the multiplication sign 0xD7) move up by 32. *)
Definition lower_char (c : ascii) : ascii :=
  let n := code c in
  if ((65 <=? n) && (n <=? 90)
      || (192 <=? n) && (n <=? 222) && negb (n =? 215))%N
  then ascii_of_N (n + 32) else c.

Definition lower : string -> string := map_chars lower_char.

(** [str.upper] on ASCII; the text it is applied to in this program
    is the ASCII message of a database error. *)
Definition upper_char (c : ascii) : ascii :=
  let n := code c in
  if ((97 <=? n) && (n <=? 122))%N then ascii_of_N (n - 32) else c.

Definition upper : string -> string := map_chars upper_char.

(** [s[:n]] *)
Fixpoint take (n : nat) (s : string) : string :=
  match n, s with
  | S n', String a s' => String a (take n' s')
  | _, _ => EmptyString
  end.

(** [c in s] for a one-character string [c]. *)
Fixpoint has_char (c : ascii) (s : string) : bool :=
  match s with
  | EmptyString => false
  | String a s' => Ascii.eqb a c || has_char c s'
  end.

(** [sub in s] *)
Fixpoint contains (sub s : string) : bool :=
  String.prefix sub s
  || match s with
     | EmptyString => false
     | String _ s' => contains sub s'
     end.

(** The text after the last occurrence of [c], if [c] occurs. *)
Fixpoint after_last (c : ascii) (s : string) : option string :=
  match s with
  | EmptyString => None
  | String a s' =>
      match after_last c s' with
      | Some r => Some r
      | None => if Ascii.eqb a c then Some s' else None
      end
  end.

(** The text before the last occurrence of [c], if [c] occurs. *)
Fixpoint before_last (c : ascii) (s : string) : option string :=
  match s with
  | EmptyString => None
  | String a s' =>
      match before_last c s' with
      | Some r => Some (String a r)
      | None => if Ascii.eqb a c then Some EmptyString else None
      end
  end.

(** [s.rsplit(c, 1)]: one piece when [c] does not occur, else the text
    before and the text after its last occurrence. *)
Definition rsplit1 (c : ascii) (s : string) : list string :=
  match before_last c s, after_last c s with
  | Some a, Some b => [a; b]
  | _, _ => [s]
  end.

(** [s.split(c)] *)
Fixpoint split (c : ascii) (s : string) : list string :=
  match s with
  | EmptyString => [EmptyString]
  | String a s' =>
      if Ascii.eqb a c then EmptyString :: split c s'
      else match split c s' with
           | [] => [String a EmptyString]
           | p :: ps => String a p :: ps
           end
  end.

(** [sep.join(l)] *)
Definition join (sep : string) (l : list string) : string :=
  String.concat sep l.

(** [bool(s)]: a string is true when it is not empty. *)
Definition truthy (s : string) : bool :=
  match s with EmptyString => false | _ => true end.

(** [os.path.basename] of [posixpath]. *)
Definition basename (p : string) : string :=
  match after_last "/" p with
  | Some r => r
  | None => p
  end.

(** [str(n)] for an integer. *)
Definition of_int (n : Z) : string := pretty n.

End PyStr.

(** ** JSON values, responses, exceptions *)

(** A JSON value as Python holds it after [json.loads], and as [jsonify]
    takes it.  An object is the list of its entries in insertion order,
    each key once.  Numbers are integers: no handler computes with a
    number, and the one that binds a number to a statement is not
    followed here on fractions. *)
#[warnings="-register-all"]
Inductive json : Type :=
  | JNull
  | JBool (b : bool)
  | JInt (n : Z)
  | JStr (s : string)
  | JArr (items : list json)
  | JObj (entries : list (string * json)).

(** [d.get(k)] on a list of entries: the first entry under the key. *)
Fixpoint assoc {A : Type} (k : string) (l : list (string * A)) : option A :=
  match l with
  | [] => None
  | (k', v) :: l' => if String.eqb k' k then Some v else assoc k l'
  end.

(** [bool(v)] of a decoded JSON value. *)
Definition json_truthy (j : json) : bool :=
  match j with
  | JNull => false
  | JBool b => b
  | JInt n => negb (n =? 0)
  | JStr s => PyStr.truthy s
  | JArr items => match items with [] => false | _ => true end
  | JObj entries => match entries with [] => false | _ => true end
  end.

(** [x or ''] for an optional string. *)
Definition or_empty (o : option string) : string :=
  match o with
  | Some s => s
  | None => EmptyString
  end.

Inductive payload : Type :=
  | Json (j : json)                      (* jsonify(...) *)
  | Text (s : string)                    (* a plain string body *)
  | FileOf (path : string) (data : string). (* send_file(path) *)

Record response : Type := Response { status : Z; body : payload }.

(** [jsonify(...)] with no status is a 200 response. *)
Definition jsonify (entries : list (string * json)) : payload :=
  Json (JObj entries).

Inductive exn : Type :=
  | IntegrityError (msg : string)     (* sqlite3.IntegrityError *)
  | OperationalError (msg : string)   (* sqlite3.OperationalError *)
  | ProgrammingError (msg : string)   (* sqlite3: unsupported parameter *)
  | OverflowError (msg : string)
  | AttributeError (msg : string)
  | IndexError (msg : string)
  | OSError (msg : string).

(** [str(e)] *)
Definition exn_str (e : exn) : string :=
  match e with
  | IntegrityError m | OperationalError m | ProgrammingError m
  | OverflowError m | AttributeError m | IndexError m | OSError m => m
  end.

Inductive outcome (A : Type) : Type :=
  | Return (a : A)
  | Raise (e : exn).
Arguments Return {A} a.
Arguments Raise {A} e.

(** ** SQLite tables *)

Module Sqlite.

(** A table with an [INTEGER PRIMARY KEY AUTOINCREMENT] column: the rows
    by rowid, and the largest rowid ever handed out. *)
Record table (A : Type) : Type := Table { rows : gmap Z A; seq : Z }.
Arguments Table {A} rows seq.
Arguments rows {A} t.
Arguments seq {A} t.

Definition empty_table {A : Type} : table A := Table ∅ 0.

(** All rows, in the order of a table scan. *)
Definition scan {A : Type} (t : table A) : list (Z * A) :=
  map_to_list (rows t).

Definition max_rowid {A : Type} (m : gmap Z A) : Z :=
  foldr Z.max 0 (map_to_list m).*1.

(** The rowid of the next inserted row: one more than the largest that
    has ever been in the table. *)
Definition next_rowid {A : Type} (t : table A) : Z :=
  Z.max (seq t) (max_rowid (rows t)) + 1.

(** [INSERT]: the new table and [lastrowid]. *)
Definition insert {A : Type} (a : A) (t : table A) : table A * Z :=
  let i := next_rowid t in (Table (<[i := a]> (rows t)) i, i).

(** [DELETE ... WHERE id=?] *)
Definition delete_id {A : Type} (i : Z) (t : table A) : table A :=
  Table (delete i (rows t)) (seq t).

(** [SELECT COUNT( * )] *)
Definition count {A : Type} (t : table A) : Z := Z.of_nat (size (rows t)).

(** [SELECT ... WHERE p] *)
Definition select_where {A : Type} (p : A -> bool) (t : table A)
  : list (Z * A) :=
  List.filter (fun r => p r.2) (scan t).

(** [SELECT ... WHERE id=?]: at most one row, found by its rowid. *)
Definition select_id {A : Type} (i : Z) (t : table A) : list (Z * A) :=
  match rows t !! i with
  | Some a => [(i, a)]
  | None => []
  end.

(** SQLite integers, rowids among them, are signed and have 64 bits. *)
Definition int64 (n : Z) : bool := (- 2 ^ 63 <=? n) && (n <? 2 ^ 63).

(** [cursor.fetchone()] *)
Definition fetchone {A : Type} (l : list A) : option A := head l.

(** A value bound to a [?] of a statement. *)
Inductive value : Type :=
  | VNull
  | VInt (n : Z)
  | VText (s : string).

(** [column = ?] for a column of TEXT affinity holding [s]: NULL
    compares to nothing; an integer operand gets TEXT affinity first. *)
Definition text_eq (s : string) (v : value) : bool :=
  match v with
  | VNull => false
  | VInt n => String.eqb s (PyStr.of_int n)
  | VText s' => String.eqb s s'
  end.

End Sqlite.

Import Sqlite.

(** The rows of the three tables of [init_db], without their [id], which
    is the rowid.  [photo_path] is the one column that can be NULL; the
    handler always leaves [created_at] to its default. *)
Module Rows.

Record user : Type := User { username : string; password : string }.

Record admin_key : Type := AdminKey { adminpass : string }.

Record employee : Type := Employee {
  name : string;
  email : string;
  department : string;
  role : string;
  roll_number : string;
  photo_path : option string;
  created_at : string
}.

End Rows.

Abbreviation user := Rows.user.
Abbreviation admin_key := Rows.admin_key.
Abbreviation employee := Rows.employee.

(** The database file.  A table that does not exist yet is [None]. *)
Record database : Type := Database {
  users : option (table user);
  admin : option (table admin_key);
  employees : option (table employee)
}.

Definition empty_database : database := Database None None None.

(** ** Paths and the file system *)

Module Path.

Definition is_abs (p : string) : bool :=
  match p with
  | String c _ => Ascii.eqb c "/"%char
  | EmptyString => false
  end.

(** The parts of a path as [pathlib] keeps them: empty parts and "."
    are dropped, ".." is kept. *)
Definition parts (p : string) : list string :=
  List.filter (fun s => negb (String.eqb s EmptyString || String.eqb s "."))
              (PyStr.split "/"%char p).

(** [str(PurePosixPath(p))] *)
Definition pure (p : string) : string :=
  if is_abs p then "/" +:+ PyStr.join "/" (parts p)
  else match parts p with
       | [] => "."
       | ps => PyStr.join "/" ps
       end.

(** [a / b] of [pathlib]: an absolute right operand replaces the left. *)
Definition join (a b : string) : string :=
  if is_abs b then pure b else pure (a +:+ "/" +:+ b).

(** What the kernel does with the parts of an absolute path: ".."
    steps to the parent, and the parent of the root is the root.  The
    directories on the way are taken to exist and not to be links. *)
Fixpoint walk (stack : list string) (ps : list string) : list string :=
  match ps with
  | [] => stack
  | p :: ps' =>
      if String.eqb p ".." then walk (removelast stack) ps'
      else walk (stack ++ [p]) ps'
  end.

(** The parts of the file a path names, seen from directory [cwd]. *)
Definition resolve (cwd p : string) : list string :=
  if is_abs p then walk [] (parts p)
  else walk (walk [] (parts cwd)) (parts p).

(** The canonical absolute path of the file a path names. *)
Definition realpath (cwd p : string) : string :=
  "/" +:+ PyStr.join "/" (resolve cwd p).

(** [is_prefix r l]: the list [r] starts the list [l]. *)
Fixpoint is_prefix (r l : list string) : bool :=
  match r, l with
  | [], _ => true
  | _ :: _, [] => false
  | a :: r', b :: l' => String.eqb a b && is_prefix r' l'
  end.

(** The file named by [p] lies in the directory [root] or below it. *)
Definition within (cwd root p : string) : bool :=
  is_prefix (resolve cwd root) (resolve cwd p).

End Path.

(** The world a handler runs in: the database file, and the regular
    files of the file system, each under its canonical path.
    Directories are not kept: a path is looked up as a file. *)
Record world : Type := World {
  db : database;
  fs : gmap string string    (* canonical path -> content *)
}.

(** How [photo.save] fails.  It opens the destination for writing and
    then copies the stream: either the [open] is refused, and no file is
    touched, or the copy breaks off, and the destination is left with
    the bytes written so far. *)
Inductive save_failure : Type :=
  | OpenFails (msg : string)
  | WriteFails (msg : string) (written : nat).

(** [str(e)] of the [OSError] of a failed save. *)
Definition save_message (f : save_failure) : string :=
  match f with
  | OpenFails msg | WriteFails msg _ => msg
  end.

(** What a handler reads from outside while it runs. *)
Record environ : Type := Environ {
  time_now : Z;                   (* int(time.time()) *)
  current_timestamp : string;     (* SQLite's CURRENT_TIMESTAMP *)
  save_error : option save_failure; (* photo.save raises OSError *)
  remove_error : option string    (* os.remove raises OSError *)
}.

(** An uploaded file part. *)
Record file_storage : Type := FileStorage {
  filename : string;
  content : string
}.

(** A request: form fields and file parts in the order they were sent, and
    what [request.get_json(silent=True)] returns ([None] for a missing
    body, a body that is not JSON, or one that does not parse). *)
Record request : Type := Request {
  form : list (string * string);
  files : list (string * file_storage);
  get_json_silent : option json
}.

(** ** Handlers as computations *)

Definition M (A : Type) : Type := world -> outcome A * world.

Definition ret {A : Type} (a : A) : M A := fun w => (Return a, w).

Definition raise {A : Type} (e : exn) : M A := fun w => (Raise e, w).

Definition bind {A B : Type} (m : M A) (k : A -> M B) : M B :=
  fun w =>
    match m w with
    | (Return a, w') => k a w'
    | (Raise e, w') => (Raise e, w')
    end.

Notation "'do' x <- m ; k" := (bind m (fun x => k))
  (at level 10, x name, m at level 100, k at level 200,
   format "'[v' 'do'  x  <-  m ; '/' k ']'").
Notation "m ;; k" := (bind m (fun _ => k))
  (at level 100, k at level 200, right associativity).

(** [try: body except Exception as e: handler(e)] *)
Definition try_except {A : Type} (body : M A) (handler : exn -> M A) : M A :=
  fun w =>
    match body w with
    | (Return a, w') => (Return a, w')
    | (Raise e, w') => handler e w'
    end.

(** [with get_db() as conn: body]: commit when the body ends, roll the
    database back when it raises.  The file system is not rolled back. *)
Definition with_get_db {A : Type} (body : M A) : M A :=
  fun w =>
    match body w with
    | (Return a, w') => (Return a, w')
    | (Raise e, w') => (Raise e, World (db w) (fs w'))
    end.

Definition get_world : M world := fun w => (Return w, w).

Definition set_db (d : database) : M unit :=
  fun w => (Return tt, World d (fs w)).

Definition set_fs (f : gmap string string) : M unit :=
  fun w => (Return tt, World (db w) f).

(** Naming a table in a statement: an error when it was never created. *)
Definition the_table {A : Type} (tname : string) (o : option (table A))
  : M (table A) :=
  match o with
  | Some t => ret t
  | None => raise (OperationalError ("no such table: " +:+ tname))
  end.

(** What the framework sends when an exception leaves a handler. *)
Definition internal_server_error : response :=
  Response 500 (Text "Internal Server Error").

(** The body of werkzeug's [NotFound], which [send_from_directory]
    raises and the framework sends as it is. *)
Definition NOT_FOUND_PAGE : string :=
  let nl := String "010"%char EmptyString in
  "<!doctype html>" +:+ nl
  +:+ "<html lang=en>" +:+ nl
  +:+ "<title>404 Not Found</title>" +:+ nl
  +:+ "<h1>Not Found</h1>" +:+ nl
  +:+ "<p>The requested URL was not found on the server. "
  +:+ "If you entered the URL manually please check your spelling "
  +:+ "and try again.</p>" +:+ nl.

Definition not_found : response := Response 404 (Text NOT_FOUND_PAGE).

(** One request served: the response and the world after it. *)
Definition serve (h : M response) (w : world) : response * world :=
  match h w with
  | (Return r, w') => (r, w')
  | (Raise _, w') => (internal_server_error, w')
  end.

(** ** Statements on the three tables *)

(** How a statement reaches a table of the database: its name, where it
    sits, and its [UNIQUE] columns. *)
Record schema (A : Type) : Type := Schema {
  tname : string;
  tget : database -> option (table A);
  tset : option (table A) -> database -> database;
  unique : list (string * (A -> string))
}.
Arguments tname {A} s.
Arguments tget {A} s d.
Arguments tset {A} s o d.
Arguments unique {A} s.

Definition users_table : schema user :=
  Schema user "users" users
    (fun o d => Database o (admin d) (employees d))
    [("username", Rows.username)].

Definition admin_table : schema admin_key :=
  Schema admin_key "admin" admin
    (fun o d => Database (users d) o (employees d))
    [].

Definition employees_table : schema employee :=
  Schema employee "employees" employees
    (fun o d => Database (users d) (admin d) o)
    [("roll_number", Rows.roll_number)].

(** [CREATE TABLE IF NOT EXISTS] *)
Definition create_table_if_not_exists {A : Type} (s : schema A) : M unit :=
  do w <- get_world;
  match tget s (db w) with
  | Some _ => ret tt
  | None => set_db (tset s (Some empty_table) (db w))
  end.

(** The table a statement names. *)
Definition from {A : Type} (s : schema A) : M (table A) :=
  do w <- get_world; the_table (tname s) (tget s (db w)).

(** The first [UNIQUE] column on which the new row meets an old one. *)
Fixpoint violated {A : Type} (cols : list (string * (A -> string)))
  (a : A) (old : list (Z * A)) : option string :=
  match cols with
  | [] => None
  | (col, proj) :: cols' =>
      if existsb (fun r => String.eqb (proj r.2) (proj a)) old
      then Some col else violated cols' a old
  end.

(** [INSERT INTO s ...]: [cursor.lastrowid] *)
Definition insert_into {A : Type} (s : schema A) (a : A) : M Z :=
  do t <- from s;
  match violated (unique s) a (scan t) with
  | Some col =>
      raise (IntegrityError
               ("UNIQUE constraint failed: " +:+ tname s +:+ "." +:+ col))
  | None =>
      do w <- get_world;
      let (t', rowid) := Sqlite.insert a t in
      set_db (tset s (Some t') (db w));;
      ret rowid
  end.

(** [DELETE FROM s WHERE id=?] *)
Definition delete_from {A : Type} (s : schema A) (i : Z) : M unit :=
  do t <- from s;
  do w <- get_world;
  set_db (tset s (Some (delete_id i t)) (db w)).

(** ** File operations *)

Section Server.

(** [pathlib.Path(__file__).parent.resolve()], the working directory of
    the process, and [werkzeug.utils.secure_filename]. *)
Variable APP_DIR : string.
Variable CWD : string.
Variable secure_filename : string -> string.

Definition UPLOAD_DIR : string := Path.join APP_DIR "uploads".

Definition ALLOWED_EXTENSIONS : list string :=
  ["png"; "jpg"; "jpeg"; "webp"; "gif"].

Definition lookup_file (f : gmap string string) (p : string)
  : option string :=
  f !! Path.realpath CWD p.

(** [p.exists()], [os.path.exists(p)] *)
Definition path_exists (p : string) : M bool :=
  do w <- get_world;
  ret (match lookup_file (fs w) p with Some _ => true | None => false end).

(** [send_file(p)] *)
Definition send_file (p : string) : M response :=
  do w <- get_world;
  match lookup_file (fs w) p with
  | Some data => ret (Response 200 (FileOf (Path.realpath CWD p) data))
  | None => raise (OSError "No such file or directory")
  end.

(** [photo.save(p)]: [open(p, "wb")], the copy of the stream, [close]. *)
Definition save (env : environ) (photo : file_storage) (p : string)
  : M unit :=
  match save_error env with
  | Some (OpenFails msg) => raise (OSError msg)
  | Some (WriteFails msg written) =>
      do w <- get_world;
      set_fs (<[Path.realpath CWD p := PyStr.take written (content photo)]>
                (fs w));;
      raise (OSError msg)
  | None =>
      do w <- get_world;
      set_fs (<[Path.realpath CWD p := content photo]> (fs w))
  end.

(** [os.remove(p)] *)
Definition os_remove (env : environ) (p : string) : M unit :=
  match remove_error env with
  | Some msg => raise (OSError msg)
  | None =>
      do w <- get_world;
      match lookup_file (fs w) p with
      | Some _ => set_fs (delete (Path.realpath CWD p) (fs w))
      | None => raise (OSError "No such file or directory")
      end
  end.

(** ** DB helpers *)

Definition init_db : M unit :=
  with_get_db
    (create_table_if_not_exists users_table;;
     create_table_if_not_exists admin_table;;
     create_table_if_not_exists employees_table;;
     do user_count <- (do t <- from users_table; ret (count t));
     (if user_count =? 0
      then (do _ <- insert_into users_table (Rows.User "hidan" "killer");
            ret tt)
      else ret tt);;
     do admin_count <- (do t <- from admin_table; ret (count t));
     (if admin_count =? 0
      then (do _ <- insert_into admin_table (Rows.AdminKey "ceo@2025");
            ret tt)
      else ret tt)).

(** A selected row of [employees], columns in the order of the SELECT. *)
Definition row_to_employee_dict (row : Z * employee) : json :=
  let (id_, e) := row in
  let photo := Rows.photo_path e in
  JObj [("id", JInt id_);
        ("name", JStr (Rows.name e));
        ("email", JStr (Rows.email e));
        ("department", JStr (Rows.department e));
        ("role", JStr (Rows.role e));
        ("roll_number", JStr (Rows.roll_number e));
        ("photo_url",
         match photo with
         | Some p => if PyStr.truthy p
                     then JStr ("/uploads/" +:+ PyStr.basename p)
                     else JNull
         | None => JNull
         end);
        ("created_at", JStr (Rows.created_at e))].

Definition allowed_file (fname : string) : bool :=
  PyStr.has_char "."%char fname
  && match PyStr.rsplit1 "."%char fname !! 1%nat with
     | Some ext =>
         existsb (String.eqb (PyStr.lower ext)) ALLOWED_EXTENSIONS
     | None => false
     end.

(** ** Static/Index *)

Definition index : M response :=
  let index_path := Path.join APP_DIR "index.html" in
  do e <- path_exists index_path;
  if e then send_file index_path
  else ret (Response 200
    (Text ("<h3>Backend is running. "
           +:+ "Open /employee-delete.html to manage employees.</h3>"))).

Definition static_files (path : string) : M response :=
  let target := Path.join APP_DIR path in
  do e <- path_exists target;
  if e then send_file target
  else ret (Response 404 (Text "Not Found")).

(** ** Auth / Admin *)

Definition login (req : request) : M response :=
  let username := or_empty (assoc "username" (form req)) in
  let password := or_empty (assoc "password" (form req)) in
  try_except
    (do row <- with_get_db
        (do t <- from users_table;
         ret (fetchone
                (select_where
                   (fun u => String.eqb (Rows.username u) username
                             && String.eqb (Rows.password u) password) t)));
     ret (Response 200
            (jsonify [("status",
                       JStr (match row with
                             | Some _ => "success"
                             | None => "fail"
                             end))])))
    (fun e =>
       ret (Response 500
              (jsonify [("status", JStr "error");
                        ("message", JStr (exn_str e))]))).

(** Binding a Python value to a [?]. *)
Definition bind_parameter (j : json) : M value :=
  match j with
  | JNull => ret VNull
  | JBool b => ret (VInt (if b then 1 else 0))
  | JInt n =>
      if (- 2 ^ 63 <=? n) && (n <? 2 ^ 63) then ret (VInt n)
      else raise (OverflowError
                    "Python int too large to convert to SQLite INTEGER")
  | JStr s => ret (VText s)
  | JArr _ | JObj _ =>
      raise (ProgrammingError
               "Error binding parameter 1: type is not supported")
  end.

(** Binding a Python [int] to a [?]. *)
Definition bind_int (n : Z) : M Z :=
  if int64 n then ret n
  else raise (OverflowError
                "Python int too large to convert to SQLite INTEGER").

Definition check_key (req : request) : M response :=
  let data := match get_json_silent req with
              | Some j => if json_truthy j then j else JObj []
              | None => JObj []
              end in
  do key <- match data with
            | JObj entries =>
                ret (match assoc "key" entries with
                     | Some v => v
                     | None => JStr EmptyString
                     end)
            | _ => raise (AttributeError "object has no attribute 'get'")
            end;
  do row <- with_get_db
      (do t <- from admin_table;
       do k <- bind_parameter key;
       ret (fetchone
              (select_where (fun a => text_eq (Rows.adminpass a) k) t)));
  ret (Response 200
         (jsonify [("ok", JBool (match row with
                                 | Some _ => true
                                 | None => false
                                 end))])).

(** [posixpath.normpath] of a relative path, on its components: empty
    components and "." go; ".." removes the component before it unless
    there is none or it is ".." itself. *)
Fixpoint normpath_comps (new_comps comps : list string) : list string :=
  match comps with
  | [] => new_comps
  | comp :: comps' =>
      if String.eqb comp EmptyString || String.eqb comp "."
      then normpath_comps new_comps comps'
      else if negb (String.eqb comp "..")
              || match last new_comps with
                 | None => true
                 | Some c => String.eqb c ".."
                 end
      then normpath_comps (new_comps ++ [comp]) comps'
      else normpath_comps (removelast new_comps) comps'
  end.

(** [werkzeug.security.safe_join(directory, fname)]: [None] when the
    name is absolute or leaves the directory. *)
Definition safe_join (directory fname : string) : option string :=
  if Path.is_abs fname then None
  else
    let comps := normpath_comps [] (PyStr.split "/"%char fname) in
    match comps with
    | c :: _ => if String.eqb c ".." then None
                else Some (directory +:+ "/" +:+ PyStr.join "/" comps)
    | [] => Some (directory +:+ "/" +:+
                  (if PyStr.truthy fname then "." else EmptyString))
    end.

(** [send_from_directory(UPLOAD_DIR, fname)]: [NotFound] when the name
    leaves the directory or names no file in it. *)
Definition get_upload (fname : string) : M response :=
  match safe_join UPLOAD_DIR fname with
  | None => ret not_found
  | Some path =>
      do e <- path_exists path;
      if e then send_file path
      else ret not_found
  end.

(** ** Employees API *)

(** Lines 170-184: the insertion and the 201 response. *)
Definition insert_employee (env : environ)
  (name email department role roll_number : string)
  (photo_path : option string) : M response :=
  do emp_id <- with_get_db
      (insert_into employees_table
         (Rows.Employee name email department role roll_number photo_path
            (current_timestamp env)));
  ret (Response 201
         (jsonify [("ok", JBool true);
                   ("employee_id", JInt emp_id);
                   ("photo_url",
                    match photo_path with
                    | Some p => if PyStr.truthy p
                                then JStr ("/uploads/" +:+ PyStr.basename p)
                                else JNull
                    | None => JNull
                    end)])).

Definition create_employee (env : environ) (req : request) : M response :=
  try_except
    (let name := PyStr.strip (or_empty (assoc "name" (form req))) in
     let email := PyStr.strip (or_empty (assoc "email" (form req))) in
     let department :=
       PyStr.strip (or_empty (assoc "department" (form req))) in
     let role := PyStr.strip (or_empty (assoc "role" (form req))) in
     let roll_number :=
       PyStr.strip (or_empty (assoc "roll_number" (form req))) in
     let missing :=
       (List.filter (fun kv => negb (PyStr.truthy kv.2))
          [("name", name); ("email", email); ("department", department);
           ("role", role); ("roll_number", roll_number)]).*1 in
     match missing with
     | _ :: _ =>
         ret (Response 400
                (jsonify [("ok", JBool false);
                          ("message",
                           JStr ("Missing fields: "
                                 +:+ PyStr.join ", " missing))]))
     | [] =>
         let photo := assoc "photo" (files req) in
         match photo with
         | Some ph =>
             if PyStr.truthy (filename ph) then
               if negb (allowed_file (filename ph)) then
                 ret (Response 415
                        (jsonify [("ok", JBool false);
                                  ("message",
                                   JStr "Unsupported image type")]))
               else
                 do ext <- match PyStr.rsplit1 "."%char (filename ph)
                                 !! 1%nat with
                           | Some e => ret (PyStr.lower e)
                           | None =>
                               raise (IndexError "list index out of range")
                           end;
                 let fname :=
                   secure_filename
                     (roll_number +:+ "_" +:+ PyStr.of_int (time_now env)
                      +:+ "." +:+ ext) in
                 let save_path := Path.join UPLOAD_DIR fname in
                 save env ph save_path;;
                 insert_employee env name email department role
                   roll_number (Some save_path)
             else
               insert_employee env name email department role
                 roll_number None
         | None =>
             insert_employee env name email department role
               roll_number None
         end
     end)
    (fun e =>
       match e with
       | IntegrityError _ =>
           let msg :=
             if PyStr.contains "UNIQUE" (PyStr.upper (exn_str e))
             then "Roll number already exists." else exn_str e in
           ret (Response 409
                  (jsonify [("ok", JBool false); ("message", JStr msg)]))
       | _ =>
           ret (Response 500
                  (jsonify [("ok", JBool false);
                            ("message", JStr (exn_str e))]))
       end).

(** [ORDER BY id DESC] *)
Definition id_desc (a b : Z * employee) : Prop := b.1 <= a.1.

#[global] Instance id_desc_dec : RelDecision id_desc.
Proof. intros a b. unfold id_desc. apply _. Defined.

Definition order_by_id_desc (l : list (Z * employee))
  : list (Z * employee) :=
  merge_sort id_desc l.

Definition list_employees : M response :=
  do rows <- with_get_db
      (do t <- from employees_table; ret (order_by_id_desc (scan t)));
  ret (Response 200
         (jsonify [("ok", JBool true);
                   ("employees", JArr (map row_to_employee_dict rows))])).

Definition get_employee (emp_id : Z) : M response :=
  do row <- with_get_db
      (do t <- from employees_table;
       do i <- bind_int emp_id;
       ret (fetchone (select_id i t)));
  match row with
  | None =>
      ret (Response 404
             (jsonify [("ok", JBool false); ("message", JStr "Not found")]))
  | Some r =>
      ret (Response 200
             (jsonify [("ok", JBool true);
                       ("employee", row_to_employee_dict r)]))
  end.

Definition delete_employee (env : environ) (emp_id : Z) : M response :=
  do found <- with_get_db
      (do t <- from employees_table;
       do i <- bind_int emp_id;
       let row := fetchone (select_id i t) in
       match row with
       | None =>
           ret (inl (Response 404
                       (jsonify [("ok", JBool false);
                                 ("message", JStr "Employee not found")])))
       | Some r =>
           let photo_path := Rows.photo_path r.2 in
           delete_from employees_table i;;
           ret (inr photo_path)
       end);
  match found with
  | inl resp => ret resp
  | inr photo_path =>
      (match photo_path with
       | Some p =>
           if PyStr.truthy p then
             do e <- path_exists p;
             if e then try_except (os_remove env p) (fun _ => ret tt)
             else ret tt
           else ret tt
       | None => ret tt
       end);;
      ret (Response 200
             (jsonify [("ok", JBool true);
                       ("message", JStr "Employee deleted")]))
  end.

(** ** The server *)

Inductive event : Type :=
  | Startup                                        (* init_db() *)
  | GetIndex
  | GetStatic (path : string)
  | GetUpload (fname : string)
  | PostLogin (req : request)
  | PostCheckKey (req : request)
  | PostEmployees (env : environ) (req : request)
  | GetEmployees
  | GetEmployee (emp_id : Z)
  | DeleteEmployee (env : environ) (emp_id : Z).

(** What an event does to the world. *)
Definition run (e : event) (w : world) : world :=
  match e with
  | Startup => (init_db w).2
  | GetIndex => (serve index w).2
  | GetStatic path => (serve (static_files path) w).2
  | GetUpload fname => (serve (get_upload fname) w).2
  | PostLogin req => (serve (login req) w).2
  | PostCheckKey req => (serve (check_key req) w).2
  | PostEmployees env req => (serve (create_employee env req) w).2
  | GetEmployees => (serve list_employees w).2
  | GetEmployee emp_id => (serve (get_employee emp_id) w).2
  | DeleteEmployee env emp_id => (serve (delete_employee env emp_id) w).2
  end.

(** The worlds the server can be in: it starts on a database file with
    no tables and any files, and then events happen. *)
Inductive reachable : world -> Prop :=
  | reachable_start f : reachable (World empty_database f)
  | reachable_run e w : reachable w -> reachable (run e w).

End Server.

(** ** Notions the properties are stated with *)

(** The required fields, in the order the handler checks them. *)
Definition REQUIRED : list string :=
  ["name"; "email"; "department"; "role"; "roll_number"].

(** A required field is missing from a form when it was not sent or holds
    only white space. *)
Definition is_missing (f : list (string * string)) (k : string) : bool :=
  match assoc k f with
  | None => true
  | Some v => PyStr.all_chars PyStr.isspace v
  end.

Definition missing_fields (f : list (string * string)) : list string :=
  List.filter (is_missing f) REQUIRED.

(** The value the handler keeps for a form field. *)
Definition form_field (req : request) (k : string) : string :=
  PyStr.strip (or_empty (assoc k (form req))).

(** The extension of a file name: the text after its last dot. *)
Definition extension (fname : string) : option string :=
  PyStr.after_last "."%char fname.

(** Some row of the table has this roll number. *)
Definition roll_taken (roll : string) (t : table employee) : bool :=
  existsb (fun r => String.eqb (Rows.roll_number r.2) roll) (scan t).



(** The database with another employees table. *)
Definition with_employees (t : table employee) (d : database) : database :=
  Database (users d) (admin d) (Some t).

(** What [init_db] leaves in a table it seeds. *)
Definition seed_if_empty {A : Type} (a : A) (t : table A) : table A :=
  if count t =? 0 then (Sqlite.insert a t).1 else t.

(** The database [init_db] leaves. *)
Definition initialised (d : database) : database :=
  Database
    (Some (seed_if_empty (Rows.User "hidan" "killer")
             (default empty_table (users d))))
    (Some (seed_if_empty (Rows.AdminKey "ceo@2025")
             (default empty_table (admin d))))
    (Some (default empty_table (employees d))).



(** The keys of a JSON object. *)
Definition json_keys (j : json) : list string :=
  match j with
  | JObj entries => entries.*1
  | _ => []
  end.

(** The photo part counts as attached when it has a file name. *)
Definition attached (req : request) (ph : file_storage) : Prop :=
  assoc "photo" (files req) = Some ph /\ filename ph <> EmptyString.


(** The row the handler inserts for a request. *)
Definition new_row (env : environ) (req : request) (photo : option string)
  : employee :=
  Rows.Employee (form_field req "name") (form_field req "email")
    (form_field req "department") (form_field req "role")
    (form_field req "roll_number") photo (current_timestamp env).

(** The 201 response of the handler. *)
Definition created (emp_id : Z) (photo_url : json) : response :=
  Response 201
    (jsonify [("ok", JBool true); ("employee_id", JInt emp_id);
              ("photo_url", photo_url)]).

(** A response of the form [{ok: false, message}]. *)
Definition failed (code : Z) (msg : string) : response :=
  Response code (jsonify [("ok", JBool false); ("message", JStr msg)]).

(** [/uploads/<basename>] for a stored path, [null] for none. *)
Definition photo_url_of (photo : option string) : json :=
  match photo with
  | Some p => if PyStr.truthy p
              then JStr ("/uploads/" +:+ PyStr.basename p) else JNull
  | None => JNull
  end.

(** What the handler answers once the photo is dealt with (lines 170 to
    191: the insertion and the except clauses around it). *)
Definition insertion_outcome (env : environ) (req : request)
  (photo : option string) (w : world) : response * world :=
  match employees (db w) with
  | None => (failed 500 "no such table: employees", w)
  | Some t =>
      if roll_taken (form_field req "roll_number") t
      then (failed 409 "Roll number already exists.", w)
      else (created (next_rowid t) (photo_url_of photo),
            World (with_employees
                     (Sqlite.insert (new_row env req photo) t).1 (db w))
                  (fs w))
  end.

(** The photo of a request passes: there is none (or one with no file
    name), or its extension is allowed and saving it does not fail. *)
Definition photo_accepted (env : environ) (req : request) : Prop :=
  match assoc "photo" (files req) with
  | None => True
  | Some ph =>
      filename ph = EmptyString
      \/ (allowed_file (filename ph) = true /\ save_error env = None)
  end.

(** [ORDER BY id DESC] on distinct ids: each id is above those after it. *)
Definition id_above (a b : Z * employee) : Prop := b.1 < a.1.

(** The keys of an employee object of a response. *)
Definition EMPLOYEE_KEYS : list string :=
  ["id"; "name"; "email"; "department"; "role"; "roll_number";
   "photo_url"; "created_at"].

(** The view of a row as a response shows it, field by field: the id,
    the six columns as they are, and the photo path turned into a
    public address. *)
Definition employee_view (row : Z * employee) : json :=
  JObj [("id", JInt row.1);
        ("name", JStr (Rows.name row.2));
        ("email", JStr (Rows.email row.2));
        ("department", JStr (Rows.department row.2));
        ("role", JStr (Rows.role row.2));
        ("roll_number", JStr (Rows.roll_number row.2));
        ("photo_url", photo_url_of (Rows.photo_path row.2));
        ("created_at", JStr (Rows.created_at row.2))].

(** The strings a JSON value holds as values. *)
Fixpoint json_strings (j : json) : list string :=
  match j with
  | JStr s => [s]
  | JArr items => flat_map json_strings items
  | JObj entries => flat_map (fun kv => json_strings kv.2) entries
  | _ => []
  end.

(** The text [p] appears in a response: some string of its JSON body
    has it as a part. *)
Definition appears (p : string) (r : response) : bool :=
  match body r with
  | Json j => existsb (PyStr.contains p) (json_strings j)
  | _ => false
  end.

(** The file system after a removal that may fail. *)
Definition after_remove (cwd : string) (env : environ) (photo : option string)
  (f : gmap string string) : gmap string string :=
  match photo with
  | Some p =>
      if PyStr.truthy p
      then match remove_error env with
           | None => delete (Path.realpath cwd p) f
           | Some _ => f
           end
      else f
  | None => f
  end.

(** The entries of a JSON object. *)
Definition json_entries (j : json) : list (string * json) :=
  match j with
  | JObj entries => entries
  | _ => []
  end.

(** The credentials a login request carries. *)
Definition credentials (req : request) : string * string :=
  (or_empty (assoc "username" (form req)),
   or_empty (assoc "password" (form req))).

(** Some user row has this name and this password. *)
Definition user_matches (cred : string * string) (t : table user) : Prop :=
  exists i u, rows t !! i = Some u
              /\ Rows.username u = cred.1 /\ Rows.password u = cred.2.

(** Some admin row holds this key. *)
Definition key_matches (key : string) (t : table admin_key) : Prop :=
  exists i a, rows t !! i = Some a /\ Rows.adminpass a = key.

(** ** A run of the server

    The application lives in [/srv/app]; next to that directory is a file
    that is not part of it.  [secure_filename] leaves the file names of
    this run as they are: they are made of letters, digits, "_" and ".". *)

Module Demo.

Definition app_dir : string := "/srv/app".
Definition cwd : string := "/srv/app".
Definition secure_filename (s : string) : string := s.

Definition env : environ :=
  Environ 1700000000 "2025-01-01 00:00:00" None None.

(** The same moment, with a file system that refuses removals. *)
Definition env_no_remove : environ :=
  Environ 1700000000 "2025-01-01 00:00:00" None (Some "Permission denied").

Definition start : world :=
  World empty_database {[ "/srv/secret.txt" := "top secret" ]}.

Definition step (e : event) (w : world) : world :=
  run app_dir cwd secure_filename e w.

Definition booted : world := step Startup start.

(** Ann, roll number R1 sent with blanks around it, and a photo. *)
Definition ann : request :=
  Request [("name", "Ann"); ("email", "ann@example.org");
           ("department", "Sales"); ("role", "Clerk");
           ("roll_number", " R1 ")]
          [("photo", FileStorage "me.PNG" "image bytes")] None.

(** Bob, roll number R2, and a photo part with no file name. *)
Definition bob : request :=
  Request [("name", "Bob"); ("email", "bob@example.org");
           ("department", "Sales"); ("role", "Clerk");
           ("roll_number", "R2")]
          [("photo", FileStorage EmptyString EmptyString)] None.

(** Roll number R1 again, with no name and a blank department. *)
Definition nameless : request :=
  Request [("email", "x@example.org"); ("department", "  ");
           ("role", "Clerk"); ("roll_number", "R1")] [] None.

(** Carol, roll number R3, and a photo that is not an image. *)
Definition carol : request :=
  Request [("name", "Carol"); ("email", "carol@example.org");
           ("department", "Sales"); ("role", "Clerk");
           ("roll_number", "R3")]
          [("photo", FileStorage "setup.exe" "MZ")] None.

Definition with_ann : world := step (PostEmployees env ann) booted.

Definition with_ann_bob : world := step (PostEmployees env bob) with_ann.

(** Dan, roll number R4, no photo part. *)
Definition dan : request :=
  Request [("name", "Dan"); ("email", "dan@example.org");
           ("department", "Sales"); ("role", "Clerk");
           ("roll_number", "R4")] [] None.

Definition with_three : world := step (PostEmployees env dan) with_ann_bob.

Definition hidan : request :=
  Request [("username", "hidan"); ("password", "killer")] [] None.

(** The employees table of a world, empty when there is none. *)
Definition employees_of (w : world) : table employee :=
  default empty_table (employees (db w)).

(** The users table of a world, empty when there is none. *)
Definition users_of (w : world) : table user :=
  default empty_table (users (db w)).

End Demo.

(** A component that [normpath] keeps. *)
Definition kept (p : string) : Prop :=
  p <> EmptyString /\ p <> "." /\ PyStr.has_char "/"%char p = false.

(** A list of components that does not climb: when it does not start
    with "..", it holds no ".." at all. *)
Definition no_climb (l : list string) : Prop :=
  head l <> Some ".." -> ".." ∉ l.

(** ** Notions the further properties are stated with *)

(** The employee objects of the listing of a world, none when the
    listing fails. *)
Definition listed (w : world) : list json :=
  match body (serve list_employees w).1 with
  | Json (JObj entries) =>
      match assoc "employees" entries with
      | Some (JArr items) => items
      | _ => []
      end
  | _ => []
  end.

(** The answer of [get_employee] for a row that is found. *)
Definition found (row : Z * employee) : response :=
  Response 200
    (jsonify [("ok", JBool true); ("employee", row_to_employee_dict row)]).

(** Events that can change the world: the start-up, a creation, a
    deletion. *)
Definition mutating (e : event) : bool :=
  match e with
  | Startup | PostEmployees _ _ | DeleteEmployee _ _ => true
  | _ => false
  end.

(** The extension the handler gives a saved photo: the text after the
    last dot of the file name, in lower case. *)
Definition photo_extension (fname : string) : string :=
  match PyStr.rsplit1 "."%char fname !! 1%nat with
  | Some e => PyStr.lower e
  | None => EmptyString
  end.

(** Lines 164 to 166: the name and the path a photo is saved under. *)
Definition photo_name (secure_filename : string -> string)
  (env : environ) (req : request) (ph : file_storage) : string :=
  secure_filename
    (form_field req "roll_number" +:+ "_" +:+ PyStr.of_int (time_now env)
     +:+ "." +:+ photo_extension (filename ph)).

Definition photo_save_path (app_dir : string)
  (secure_filename : string -> string)
  (env : environ) (req : request) (ph : file_storage) : string :=
  Path.join (UPLOAD_DIR app_dir) (photo_name secure_filename env req ph).

(** The photo path the handler records for a request: none when no photo
    is attached. *)
Definition stored_photo (app_dir : string)
  (secure_filename : string -> string)
  (env : environ) (req : request) : option string :=
  match assoc "photo" (files req) with
  | Some ph =>
      if PyStr.truthy (filename ph)
      then Some (photo_save_path app_dir secure_filename env req ph)
      else None
  | None => None
  end.

(** The files after the photo of a request is saved. *)
Definition saved_files (app_dir cwd : string)
  (secure_filename : string -> string)
  (env : environ) (req : request) (f : gmap string string)
  : gmap string string :=
  match assoc "photo" (files req) with
  | Some ph =>
      if PyStr.truthy (filename ph)
      then <[Path.realpath cwd
               (photo_save_path app_dir secure_filename env req ph)
             := content ph]> f
      else f
  | None => f
  end.

(** Events one after the other. *)
Definition run_all (app_dir cwd : string)
  (secure_filename : string -> string) (es : list event) (w : world)
  : world :=
  fold_left (fun w' e => run app_dir cwd secure_filename e w') es w.

(** The object carries this id. *)
Definition has_id (i : Z) (v : json) : bool :=
  match assoc "id" (json_entries v) with
  | Some (JInt j) => j =? i
  | _ => false
  end.


(** The tables [init_db] seeds, as a first start-up leaves them. *)
Definition seeded_users : table user :=
  Table {[ 1 := Rows.User "hidan" "killer" ]} 1.

Definition seeded_admin : table admin_key :=
  Table {[ 1 := Rows.AdminKey "ceo@2025" ]} 1.

(** The users and admin tables are as the start-up left them, if it ran. *)
Definition accounts_seeded (w : world) : Prop :=
  (users (db w) = None \/ users (db w) = Some seeded_users)
  /\ (admin (db w) = None \/ admin (db w) = Some seeded_admin).

(** A text with something in it and no white space at either end. *)
Definition trimmed (s : string) : Prop :=
  s <> EmptyString /\ PyStr.strip s = s.

(** A row whose five required fields are trimmed. *)
Definition row_trimmed (e : employee) : Prop :=
  trimmed (Rows.name e) /\ trimmed (Rows.email e)
  /\ trimmed (Rows.department e) /\ trimmed (Rows.role e)
  /\ trimmed (Rows.roll_number e).

(** The event is a request, not the start-up. *)
Definition is_request (e : event) : Prop := e <> Startup.

(** A plain file name: one component that is not empty, not "." and not
    "..", with no separator in it. *)
Definition plain_name (fname : string) : Prop :=
  kept fname /\ fname <> "..".

(** ** More of the run of [Demo] *)

Module Scenes.

(** The moment of [Demo.env], with a disk that is full after five
    bytes of the photo. *)
Definition env_no_save : environ :=
  Environ 1700000000 "2025-01-01 00:00:00"
    (Some (WriteFails "No space left on device" 5)) None.

(** The same moment, with an upload directory that cannot be written. *)
Definition env_no_open : environ :=
  Environ 1700000000 "2025-01-01 00:00:00"
    (Some (OpenFails "Permission denied")) None.

(** The photo part of Ann's request. *)
Definition ann_photo : file_storage := FileStorage "me.PNG" "image bytes".

(** The row Ann's request leaves. *)
Definition ann_row : employee :=
  Rows.Employee "Ann" "ann@example.org" "Sales" "Clerk" "R1"
    (Some "/srv/app/uploads/R1_1700000000.png") "2025-01-01 00:00:00".

(** The admin table of a world, empty when there is none. *)
Definition admin_of (w : world) : table admin_key :=
  default empty_table (admin (db w)).

(** A key check with the seeded key. *)
Definition right_key : request :=
  Request [] [] (Some (JObj [("key", JStr "ceo@2025")])).

(** The server started from the root directory, then Ann's creation. *)
Definition root_with_ann : world :=
  run "/" "/" Demo.secure_filename (PostEmployees Demo.env Demo.ann)
    (run "/" "/" Demo.secure_filename Startup Demo.start).

(** The row Ann's request leaves there. *)
Definition root_ann_row : employee :=
  Rows.Employee "Ann" "ann@example.org" "Sales" "Clerk" "R1"
    (Some "/uploads/R1_1700000000.png") "2025-01-01 00:00:00".

(** Bob is deleted again after his creation. *)
Definition bob_gone : list event := [DeleteEmployee Demo.env 2].

End Scenes.

(** * Properties *)

(** ** Strings *)

Lemma truthy_false s : PyStr.truthy s = false <-> s = EmptyString.
Proof. destruct s; simpl; split; congruence. Qed.

Lemma lstrip_empty s :
  PyStr.lstrip s = EmptyString <-> PyStr.all_chars PyStr.isspace s = true.
Proof.
  induction s as [|c s IH]; simpl; [tauto|].
  destruct (PyStr.isspace c); simpl; [exact IH|]. split; discriminate.
Qed.

Lemma rstrip_empty s :
  PyStr.rstrip s = EmptyString <-> PyStr.all_chars PyStr.isspace s = true.
Proof.
  induction s as [|c s IH]; simpl; [tauto|].
  destruct (PyStr.rstrip s) eqn:E.
  - destruct (PyStr.isspace c); simpl.
    + split; intros _; [ apply IH; reflexivity | reflexivity ].
    + split; discriminate.
  - split; [discriminate|]. intros H. apply andb_true_iff in H as [_ H].
    apply IH in H. discriminate.
Qed.

Lemma lstrip_head s :
  PyStr.lstrip s = EmptyString
  \/ exists c r, PyStr.lstrip s = String c r /\ PyStr.isspace c = false.
Proof.
  induction s as [|c s IH]; simpl; [left; reflexivity|].
  destruct (PyStr.isspace c) eqn:E; [exact IH|]. right. eauto.
Qed.

(** A string strips to nothing exactly when it is all white space. *)
Lemma strip_empty s :
  PyStr.strip s = EmptyString <-> PyStr.all_chars PyStr.isspace s = true.
Proof.
  unfold PyStr.strip. split.
  - intros H. apply rstrip_empty in H.
    destruct (lstrip_head s) as [E|(c & r & E & Hc)].
    + apply lstrip_empty, E.
    + rewrite E in H. simpl in H. rewrite Hc in H. discriminate.
  - intros H. apply lstrip_empty in H. rewrite H. reflexivity.
Qed.

Lemma form_field_truthy req k :
  PyStr.truthy (form_field req k) = negb (is_missing (form req) k).
Proof.
  unfold form_field, is_missing. destruct (assoc k (form req)) as [v|]; simpl.
  - destruct (PyStr.all_chars PyStr.isspace v) eqn:E.
    + apply strip_empty in E. rewrite E. reflexivity.
    + destruct (PyStr.strip v) eqn:S; [|reflexivity].
      apply strip_empty in S. congruence.
  - reflexivity.
Qed.

(** ** Tables *)



Lemma count_zero {A} (t : table A) : count t = 0 -> rows t = ∅.
Proof. unfold count. intros H. apply map_size_empty_iff. lia. Qed.

Lemma scan_count_zero {A} (t : table A) : count t = 0 -> scan t = [].
Proof.
  intros H. unfold scan. rewrite (count_zero t H). apply map_to_list_empty.
Qed.

Lemma count_empty_table {A} : count (@empty_table A) = 0.
Proof. reflexivity. Qed.

Lemma scan_empty_table {A} : scan (@empty_table A) = [].
Proof. apply scan_count_zero. reflexivity. Qed.

Lemma count_insert {A} (a : A) t :
  (count (Sqlite.insert a t).1 =? 0) = false.
Proof.
  unfold count, Sqlite.insert. simpl. apply Z.eqb_neq. intros H.
  assert (E : size (<[next_rowid t:=a]> (rows t)) = 0%nat) by lia.
  apply map_size_empty_iff in E.
  exact (insert_non_empty _ _ _ E).
Qed.

Lemma violated_nil {A} cols (a : A) : violated cols a [] = None.
Proof. induction cols as [|[c p] cols IH]; simpl; auto. Qed.


(** ** Statements *)

Lemma world_eta w : World (db w) (fs w) = w.
Proof. destruct w; reflexivity. Qed.

Lemma from_run {A} (s : schema A) w :
  from s w =
  match tget s (db w) with
  | Some t => (Return t, w)
  | None => (Raise (OperationalError ("no such table: " +:+ tname s)), w)
  end.
Proof.
  unfold from, bind, get_world, the_table.
  destruct (tget s (db w)); reflexivity.
Qed.

Lemma insert_into_run {A} (s : schema A) a w :
  insert_into s a w =
  match tget s (db w) with
  | None => (Raise (OperationalError ("no such table: " +:+ tname s)), w)
  | Some t =>
      match violated (unique s) a (scan t) with
      | Some col =>
          (Raise (IntegrityError
                    ("UNIQUE constraint failed: " +:+ tname s
                     +:+ "." +:+ col)), w)
      | None =>
          (Return (next_rowid t),
           World (tset s (Some (Sqlite.insert a t).1) (db w)) (fs w))
      end
  end.
Proof.
  unfold insert_into, bind. rewrite from_run.
  destruct (tget s (db w)) as [t|]; [|reflexivity].
  destruct (violated (unique s) a (scan t)); reflexivity.
Qed.

Lemma delete_from_run {A} (s : schema A) i w :
  delete_from s i w =
  match tget s (db w) with
  | None => (Raise (OperationalError ("no such table: " +:+ tname s)), w)
  | Some t =>
      (Return tt, World (tset s (Some (delete_id i t)) (db w)) (fs w))
  end.
Proof.
  unfold delete_from, bind. rewrite from_run.
  destruct (tget s (db w)); reflexivity.
Qed.

Ltac run_step :=
  first
    [ rewrite insert_into_run
    | rewrite from_run
    | rewrite count_empty_table
    | rewrite scan_empty_table
    | rewrite violated_nil
    | rewrite count_insert
    | match goal with
      | H : (count ?t =? 0) = true |- context [scan ?t] =>
          rewrite (scan_count_zero t (proj1 (Z.eqb_eq _ _) H))
      end
    | progress (unfold bind, ret, get_world, set_db, raise)
    | progress simpl
    | match goal with
      | |- context [count ?t =? 0] => destruct (count t =? 0) eqn:?
      end ].

(** [init_db] never raises, and leaves the database [initialised]. *)
Lemma init_db_run w :
  init_db w = (Return tt, World (initialised (db w)) (fs w)).
Proof.
  destruct w as [[u a e] f].
  unfold init_db, with_get_db, create_table_if_not_exists,
    initialised, seed_if_empty.
  destruct u as [u|], a as [a|], e as [e|]; repeat run_step; congruence.
Qed.







(** ** The upload route stays in its directory *)

Lemma append_cons c a s : String c a +:+ s = String c (a +:+ s).
Proof. reflexivity. Qed.

Lemma split_nonempty c s : PyStr.split c s <> [].
Proof.
  destruct s as [|a s]; simpl; [discriminate|].
  destruct (Ascii.eqb a c); [discriminate|].
  destruct (PyStr.split c s); discriminate.
Qed.

Lemma split_app c a b :
  PyStr.split c (a +:+ String c b) = PyStr.split c a ++ PyStr.split c b.
Proof.
  induction a as [|x a IH].
  - change (EmptyString +:+ String c b) with (String c b). simpl.
    rewrite Ascii.eqb_refl. reflexivity.
  - rewrite append_cons. simpl. rewrite IH.
    destruct (Ascii.eqb x c); [reflexivity|].
    pose proof (split_nonempty c a) as Hne.
    destruct (PyStr.split c a) as [|p ps]; [congruence|]. reflexivity.
Qed.

Lemma split_no_sep c s :
  Forall (fun p => PyStr.has_char c p = false) (PyStr.split c s).
Proof.
  induction s as [|a s IH]; simpl.
  - constructor; [reflexivity|constructor].
  - destruct (Ascii.eqb a c) eqn:E.
    + constructor; [reflexivity|exact IH].
    + destruct (PyStr.split c s) as [|p ps]; simpl.
      * constructor; [simpl; rewrite E; reflexivity|constructor].
      * inversion IH as [|? ? Hp Hps]; subst.
        constructor; [simpl; rewrite E; exact Hp|exact Hps].
Qed.

Lemma split_single c s : PyStr.has_char c s = false -> PyStr.split c s = [s].
Proof.
  induction s as [|a s IH]; simpl; [reflexivity|].
  intros H. apply orb_false_iff in H as [Ha Hs]. rewrite Ha, (IH Hs).
  reflexivity.
Qed.

Lemma split_join c l :
  l <> [] -> Forall (fun p => PyStr.has_char c p = false) l ->
  PyStr.split c (PyStr.join (String c EmptyString) l) = l.
Proof.
  unfold PyStr.join. induction l as [|x l IH]; [congruence|].
  intros _ Hall. inversion Hall as [|? ? Hx Hl]; subst.
  destruct l as [|y l].
  - simpl. apply split_single, Hx.
  - change (concat (String c EmptyString) (x :: y :: l))
      with (x +:+ String c (concat (String c EmptyString) (y :: l))).
    rewrite split_app, (split_single c x Hx), IH; [reflexivity| |exact Hl].
    discriminate.
Qed.

Lemma removelast_subset (l : list string) x : x ∈ removelast l -> x ∈ l.
Proof.
  induction l as [|a l IH]; simpl; [auto|].
  destruct l as [|b l]; [intros H; inversion H|].
  intros H. apply elem_of_cons in H as [->|H]; [left|right; auto].
Qed.

Lemma head_removelast (l : list string) :
  removelast l = [] \/ head (removelast l) = head l.
Proof.
  destruct l as [|a [|b l]]; simpl; auto.
Qed.

Lemma normpath_comps_kept acc comps :
  Forall kept acc -> no_climb acc ->
  Forall (fun p => PyStr.has_char "/"%char p = false) comps ->
  Forall kept (normpath_comps acc comps)
  /\ no_climb (normpath_comps acc comps).
Proof.
  revert acc. induction comps as [|comp comps IH]; intros acc Hk Hc Hs;
    [simpl; auto|].
  inversion Hs as [|? ? Hcomp Hcomps]; subst. simpl.
  destruct (String.eqb comp EmptyString) eqn:E1; simpl; [apply IH; auto|].
  destruct (String.eqb comp ".") eqn:E2; simpl; [apply IH; auto|].
  apply String.eqb_neq in E1, E2.
  assert (Hkc : kept comp) by (repeat split; auto).
  destruct (String.eqb comp "..") eqn:E3; simpl.
  - apply String.eqb_eq in E3. subst comp.
    destruct (last acc) as [c|] eqn:El.
    + destruct (String.eqb c "..") eqn:E4.
      * apply String.eqb_eq in E4. subst c. apply IH; auto.
        -- apply Forall_app. split; [exact Hk|constructor; auto].
        -- intros Hh Hin. apply Hc.
           ++ destruct acc; [discriminate|exact Hh].
           ++ apply last_Some_elem_of, El.
      * apply IH; auto.
        -- rewrite Forall_forall in Hk |- *. intros x Hx.
           apply Hk, removelast_subset, Hx.
        -- intros Hh Hin.
           destruct (head_removelast acc) as [Hnil|Heq].
           ++ rewrite Hnil in Hin. inversion Hin.
           ++ rewrite Heq in Hh. apply (Hc Hh), removelast_subset, Hin.
    + apply last_None in El. subst acc. apply IH; auto.
      * constructor; auto.
      * intros Hh. simpl in Hh. congruence.
  - apply String.eqb_neq in E3. apply IH; auto.
    + apply Forall_app. split; [exact Hk|constructor; auto].
    + intros Hh Hin. apply elem_of_app in Hin as [Hin|Hin].
      * apply Hc; [|exact Hin]. destruct acc; [inversion Hin|exact Hh].
      * apply list_elem_of_singleton in Hin. congruence.
Qed.

Lemma walk_app stack a b :
  Path.walk stack (a ++ b) = Path.walk (Path.walk stack a) b.
Proof.
  revert stack. induction a as [|p a IH]; intros stack; [reflexivity|].
  simpl. destruct (String.eqb p ".."); apply IH.
Qed.

Lemma walk_no_dots stack l :
  ".." ∉ l -> Path.walk stack l = stack ++ l.
Proof.
  revert stack. induction l as [|p l IH]; intros stack Hn; simpl.
  - rewrite app_nil_r. reflexivity.
  - destruct (String.eqb p "..") eqn:E.
    + apply String.eqb_eq in E. subst p. destruct Hn. left.
    + rewrite IH; [rewrite <- app_assoc; reflexivity|].
      intros Hin. apply Hn. right. exact Hin.
Qed.

Lemma is_prefix_app r l : Path.is_prefix r (r ++ l) = true.
Proof.
  induction r as [|a r IH]; simpl; [reflexivity|].
  rewrite String.eqb_refl. exact IH.
Qed.

Lemma parts_kept l :
  l <> [] -> Forall kept l -> Path.parts (PyStr.join "/" l) = l.
Proof.
  intros Hne Hk. unfold Path.parts. rewrite split_join; [|exact Hne|].
  - induction Hk as [|p l [H1 [H2 _]] _ IH]; [congruence|]. simpl.
    apply String.eqb_neq in H1, H2. rewrite H1, H2. simpl. f_equal.
    destruct l; [reflexivity|]. apply IH. discriminate.
  - eapply Forall_impl; [exact Hk|]. intros p (_ & _ & H). exact H.
Qed.

Lemma parts_app a b :
  Path.parts (a +:+ "/" +:+ b) = Path.parts a ++ Path.parts b.
Proof.
  unfold Path.parts.
  change (a +:+ "/" +:+ b) with (a +:+ String "/" b).
  rewrite split_app. apply List.filter_app.
Qed.

Lemma is_abs_app a b :
  a <> EmptyString -> Path.is_abs (a +:+ b) = Path.is_abs a.
Proof. destruct a; [congruence|reflexivity]. Qed.

(** What [safe_join] accepts names a file in the directory or below. *)
Lemma safe_join_within cwd dir fname p :
  dir <> EmptyString -> safe_join dir fname = Some p ->
  Path.within cwd dir p = true.
Proof.
  intros Hd. unfold safe_join.
  destruct (Path.is_abs fname); [discriminate|].
  destruct (normpath_comps_kept [] (PyStr.split "/" fname))
    as [Hk Hc]; [constructor|intros _ H; inversion H|apply split_no_sep|].
  assert (Hgo : forall rest l, Path.parts rest = l -> ".." ∉ l ->
                  Path.within cwd dir (dir +:+ "/" +:+ rest) = true).
  { intros rest l Hl Hn. unfold Path.within, Path.resolve.
    rewrite (is_abs_app dir _ Hd), parts_app, Hl.
    destruct (Path.is_abs dir);
      rewrite walk_app, (walk_no_dots _ l Hn); apply is_prefix_app. }
  destruct (normpath_comps [] (PyStr.split "/" fname)) as [|c l] eqn:E.
  - intros [= <-]. destruct (PyStr.truthy fname).
    + apply (Hgo "." []); [reflexivity|intros H; inversion H].
    + apply (Hgo EmptyString []); [reflexivity|intros H; inversion H].
  - destruct (String.eqb c "..") eqn:Ec; [discriminate|].
    intros [= <-]. apply (Hgo (PyStr.join "/" (c :: l)) (c :: l)).
    + apply parts_kept; [discriminate|exact Hk].
    + apply Hc. simpl. apply String.eqb_neq in Ec. congruence.
Qed.

Section Properties.

Variable APP_DIR : string.
Variable CWD : string.
Variable secure_filename : string -> string.

#[local] Abbreviation create := (create_employee APP_DIR CWD secure_filename).
#[local] Abbreviation delete_emp := (delete_employee CWD).

(** ** Creating an employee *)

(** The list the handler collects is the list of missing fields. *)
Lemma missing_collected req :
  (List.filter (fun kv : string * string => negb (PyStr.truthy kv.2))
     [("name", form_field req "name");
      ("email", form_field req "email");
      ("department", form_field req "department");
      ("role", form_field req "role");
      ("roll_number", form_field req "roll_number")]).*1
  = missing_fields (form req).
Proof.
  unfold missing_fields, REQUIRED. simpl.
  rewrite !form_field_truthy, !negb_involutive.
  destruct (is_missing (form req) "name"),
    (is_missing (form req) "email"),
    (is_missing (form req) "department"),
    (is_missing (form req) "role"),
    (is_missing (form req) "roll_number"); reflexivity.
Qed.

Lemma insert_employee_run env name email department role roll photo w :
  insert_employee env name email department role roll photo w =
  match employees (db w) with
  | None => (Raise (OperationalError "no such table: employees"), w)
  | Some t =>
      if roll_taken roll t
      then (Raise (IntegrityError
                     "UNIQUE constraint failed: employees.roll_number"), w)
      else
        (Return
           (Response 201
              (jsonify
                 [("ok", JBool true);
                  ("employee_id", JInt (next_rowid t));
                  ("photo_url",
                   match photo with
                   | Some p =>
                       if PyStr.truthy p
                       then JStr ("/uploads/" +:+ PyStr.basename p)
                       else JNull
                   | None => JNull
                   end)])),
         World (with_employees
                  (Sqlite.insert
                     (Rows.Employee name email department role roll photo
                        (current_timestamp env)) t).1 (db w))
               (fs w))
  end.
Proof.
  unfold insert_employee, with_get_db, bind at 1.
  rewrite insert_into_run. simpl. unfold roll_taken.
  destruct (employees (db w)) as [t|].
  - destruct (existsb _ (scan t)); simpl; rewrite ?world_eta; reflexivity.
  - rewrite world_eta. reflexivity.
Qed.

Ltac open_create req :=
  unfold create_employee, try_except;
  change (PyStr.strip (or_empty (assoc ?k (form req))))
    with (form_field req k);
  rewrite missing_collected.

(** C3. A request with a missing required field gets a 400 whose message
    lists every missing field, in the order name, email, department,
    role, roll_number, and the world is left as it was: no file is
    written and no row is inserted. *)
Theorem create_employee_missing_fields env req w :
  (exists k, k ∈ REQUIRED /\ is_missing (form req) k = true) ->
  serve (create env req) w
  = (Response 400
       (jsonify [("ok", JBool false);
                 ("message",
                  JStr ("Missing fields: "
                        +:+ PyStr.join ", " (missing_fields (form req))))]),
     w)
  /\ (forall k, k ∈ missing_fields (form req)
                <-> k ∈ REQUIRED /\ is_missing (form req) k = true).
Proof.
  intros (k & Hk & Hm).
  assert (Hspec : forall k, k ∈ missing_fields (form req)
                <-> k ∈ REQUIRED /\ is_missing (form req) k = true).
  { intros k'. unfold missing_fields.
    rewrite list_elem_of_In, filter_In, <- list_elem_of_In. tauto. }
  split; [|exact Hspec].
  assert (Hne : missing_fields (form req) ≠ []).
  { intros E.
    assert (Hin : k ∈ missing_fields (form req)) by (apply Hspec; auto).
    rewrite E in Hin. inversion Hin. }
  unfold serve. open_create req.
  destruct (missing_fields (form req)); [congruence|]. reflexivity.
Qed.

Lemma allowed_file_extension fname :
  allowed_file fname = true
  <-> exists ext, extension fname = Some ext
                  /\ PyStr.lower ext ∈ ALLOWED_EXTENSIONS.
Proof.
  unfold allowed_file, extension, PyStr.rsplit1.
  assert (Hb : forall s, PyStr.before_last "."%char s = None
                         <-> PyStr.after_last "."%char s = None).
  { induction s as [|c s IH]; simpl; [tauto|].
    destruct (PyStr.before_last "." s), (PyStr.after_last "." s);
      try (destruct IH as [IH1 IH2]; (specialize (IH1 eq_refl) ||
                                      specialize (IH2 eq_refl)); discriminate).
    - split; discriminate.
    - destruct (Ascii.eqb c "."); split; congruence. }
  assert (Hc : forall s, PyStr.has_char "."%char s = true
                         <-> PyStr.after_last "."%char s <> None).
  { induction s as [|c s IH]; simpl; [split; congruence|].
    rewrite orb_true_iff, IH.
    destruct (PyStr.after_last "." s); [split; [congruence|auto]|].
    destruct (Ascii.eqb c "."); split; try congruence; intuition congruence. }
  destruct (PyStr.after_last "." fname) as [ext|] eqn:Ea.
  - destruct (PyStr.before_last "." fname) as [stem|] eqn:Eb.
    + assert (Hh : PyStr.has_char "." fname = true)
        by (apply Hc; congruence).
      rewrite Hh, andb_true_l.
      change ([stem; ext] !! 1%nat) with (Some ext).
      rewrite existsb_exists. split.
      * intros (x & Hin & Heq). apply String.eqb_eq in Heq. subst x.
        exists ext. split; [reflexivity|]. apply list_elem_of_In, Hin.
      * intros (x & Hx & Hin). injection Hx as <-.
        exists (PyStr.lower ext). split; [apply list_elem_of_In, Hin|].
        apply String.eqb_refl.
    + apply Hb in Eb. congruence.
  - assert (Hh : PyStr.has_char "." fname = false).
    { destruct (PyStr.has_char "." fname) eqn:E; [|reflexivity].
      apply Hc in E. congruence. }
    rewrite Hh. simpl. split; [discriminate|]. intros (x & Hx & _).
    discriminate.
Qed.

(** C4. With all required fields present, an attached photo whose
    extension, lower-cased, is not one of png, jpg, jpeg, webp, gif (or
    that has no extension) gets a 415, and the world is left as it was:
    no file is saved and no row is inserted. *)
Theorem create_employee_unsupported_photo env req ph w :
  missing_fields (form req) = [] ->
  attached req ph ->
  (forall ext, extension (filename ph) = Some ext ->
               PyStr.lower ext ∉ ALLOWED_EXTENSIONS) ->
  serve (create env req) w
  = (Response 415
       (jsonify [("ok", JBool false);
                 ("message", JStr "Unsupported image type")]),
     w).
Proof.
  intros Hm [Hph Hname] Hext.
  assert (Ha : allowed_file (filename ph) = false).
  { destruct (allowed_file (filename ph)) eqn:E; [|reflexivity].
    apply allowed_file_extension in E as (ext & E1 & E2).
    destruct (Hext ext E1 E2). }
  unfold serve. open_create req. rewrite Hm, Hph.
  destruct (filename ph); [congruence|]. simpl PyStr.truthy. cbv iota.
  rewrite Ha. reflexivity.
Qed.

Lemma insertion_run env req photo w :
  serve
    (try_except
       (insert_employee env (form_field req "name")
          (form_field req "email") (form_field req "department")
          (form_field req "role") (form_field req "roll_number") photo)
       (fun e =>
          match e with
          | IntegrityError _ =>
              let msg :=
                if PyStr.contains "UNIQUE" (PyStr.upper (exn_str e))
                then "Roll number already exists." else exn_str e in
              ret (Response 409
                     (jsonify [("ok", JBool false);
                               ("message", JStr msg)]))
          | _ =>
              ret (Response 500
                     (jsonify [("ok", JBool false);
                               ("message", JStr (exn_str e))]))
          end)) w
  = insertion_outcome env req photo w.
Proof.
  unfold serve, try_except, insertion_outcome.
  rewrite insert_employee_run.
  destruct (employees (db w)) as [t|]; [|reflexivity].
  destruct (roll_taken (form_field req "roll_number") t); reflexivity.
Qed.

Ltac open_create_keep req :=
  unfold create_employee;
  change (PyStr.strip (or_empty (assoc ?k (form req))))
    with (form_field req k);
  rewrite missing_collected.

(** With no photo to store, the handler goes straight to the insertion. *)
Lemma create_employee_no_photo env req w :
  missing_fields (form req) = [] ->
  (assoc "photo" (files req) = None
   \/ exists ph, assoc "photo" (files req) = Some ph
                 /\ filename ph = EmptyString) ->
  serve (create env req) w = insertion_outcome env req None w.
Proof.
  intros Hm Hp. open_create_keep req. rewrite Hm.
  destruct Hp as [Hp|(ph & Hp & Hn)]; rewrite Hp; [|rewrite Hn];
    apply insertion_run.
Qed.

(** With a photo that passes, the file is written, then the insertion
    happens in the world that has the file. *)
Lemma create_employee_photo env req ph w :
  missing_fields (form req) = [] ->
  attached req ph ->
  allowed_file (filename ph) = true ->
  save_error env = None ->
  exists path,
    serve (create env req) w
    = insertion_outcome env req (Some path)
        (World (db w)
           (<[Path.realpath CWD path := content ph]> (fs w))).
Proof.
  intros Hm [Hp Hn] Ha Hs.
  destruct (PyStr.rsplit1 "." (filename ph) !! 1%nat) as [e|] eqn:He.
  2:{ unfold allowed_file in Ha. rewrite He, andb_false_r in Ha.
      discriminate. }
  exists (Path.join (UPLOAD_DIR APP_DIR)
            (secure_filename
               (form_field req "roll_number" +:+ "_"
                +:+ PyStr.of_int (time_now env) +:+ "."
                +:+ PyStr.lower e))).
  open_create_keep req. rewrite Hm, Hp.
  destruct (filename ph) eqn:Ef; [congruence|]. simpl PyStr.truthy.
  cbv iota. rewrite Ha. simpl negb. cbv iota. rewrite He.
  rewrite <- insertion_run.
  unfold serve, try_except, bind, ret, save. rewrite Hs.
  reflexivity.
Qed.

(** ** Deleting an employee *)

Lemma delete_employee_absent env emp_id w t :
  employees (db w) = Some t -> int64 emp_id = true ->
  rows t !! emp_id = None ->
  serve (delete_emp env emp_id) w = (failed 404 "Employee not found", w).
Proof.
  intros Ht Hi Hn.
  unfold serve, delete_employee, with_get_db, bind at 1 2.
  rewrite from_run. simpl tget. rewrite Ht. cbv beta iota.
  unfold bind at 1, bind_int. rewrite Hi. unfold ret at 1. cbv beta iota.
  unfold select_id. rewrite Hn. reflexivity.
Qed.

(** An id that does not fit 64 bits cannot be bound to the statement:
    the [OverflowError] leaves the handler. *)
Lemma delete_employee_overflow env emp_id w t :
  employees (db w) = Some t -> int64 emp_id = false ->
  serve (delete_emp env emp_id) w = (internal_server_error, w).
Proof.
  intros Ht Hi.
  unfold serve, delete_employee, with_get_db, bind at 1 2.
  rewrite from_run. simpl tget. rewrite Ht. cbv beta iota.
  unfold bind at 1, bind_int. rewrite Hi. unfold raise at 1. cbv beta iota.
  rewrite world_eta. reflexivity.
Qed.

Lemma delete_employee_no_table env emp_id w :
  employees (db w) = None ->
  serve (delete_emp env emp_id) w = (internal_server_error, w).
Proof.
  intros Ht.
  unfold serve, delete_employee, with_get_db, bind at 1 2.
  rewrite from_run. simpl tget. rewrite Ht. simpl. rewrite world_eta.
  reflexivity.
Qed.

Lemma delete_employee_present env emp_id w t e :
  employees (db w) = Some t -> int64 emp_id = true ->
  rows t !! emp_id = Some e ->
  serve (delete_emp env emp_id) w
  = (Response 200
       (jsonify [("ok", JBool true); ("message", JStr "Employee deleted")]),
     World (with_employees (Table (delete emp_id (rows t)) (seq t)) (db w))
           (after_remove CWD env (Rows.photo_path e) (fs w))).
Proof.
  intros Ht Hi He.
  unfold serve, delete_employee, with_get_db, bind, bind_int.
  rewrite from_run. simpl tget. rewrite Ht. cbv beta iota. rewrite Hi.
  unfold ret at 1. cbv beta iota.
  unfold select_id. rewrite He.
  change (fetchone [(emp_id, e)]) with (Some (emp_id, e)).
  cbv beta iota.
  rewrite delete_from_run. simpl tget. rewrite Ht. cbv iota.
  unfold ret at 1. cbv iota.
  unfold after_remove, with_employees, delete_id.
  change (Rows.photo_path (emp_id, e).2) with (Rows.photo_path e).
  destruct (Rows.photo_path e) as [p|]; [|reflexivity].
  destruct (PyStr.truthy p); [|reflexivity].
  unfold path_exists, try_except, os_remove, lookup_file,
    get_world, set_fs, ret, raise, bind. simpl.
  destruct (fs w !! Path.realpath CWD p) eqn:Ef.
  - destruct (remove_error env); simpl; [reflexivity|].
    rewrite Ef. reflexivity.
  - destruct (remove_error env); [reflexivity|].
    rewrite (fin_maps.delete_id _ _ Ef). reflexivity.
Qed.

(** The deletion of an id that fits 64 bits.  An id that is not in the
    table gets a 404 and changes nothing.  An id that is in the table
    has exactly its row removed and gets a 200 with ok true; the
    recorded photo file is removed when the removal succeeds and left
    when it fails; the answer is the same whether or not the removal
    fails; deleting the same id again gets a 404. *)
Lemma delete_employee_behaviour env emp_id w t :
  employees (db w) = Some t ->
  int64 emp_id = true ->
  let r := (serve (delete_emp env emp_id) w).1 in
  let w' := (serve (delete_emp env emp_id) w).2 in
  match rows t !! emp_id with
  | None => r = failed 404 "Employee not found" /\ w' = w
  | Some e =>
      r = Response 200
            (jsonify [("ok", JBool true);
                      ("message", JStr "Employee deleted")])
      /\ db w' = with_employees
                   (Table (delete emp_id (rows t)) (seq t)) (db w)
      /\ fs w' = after_remove CWD env (Rows.photo_path e) (fs w)
      /\ (forall env', (serve (delete_emp env' emp_id) w).1 = r)
      /\ (forall env',
            serve (delete_emp env' emp_id) w'
            = (failed 404 "Employee not found", w'))
  end.
Proof.
  intros Ht Hi. simpl. destruct (rows t !! emp_id) as [e|] eqn:He.
  - rewrite (delete_employee_present env emp_id w t e Ht Hi He). simpl.
    repeat split.
    + intros env'.
      rewrite (delete_employee_present env' emp_id w t e Ht Hi He).
      reflexivity.
    + intros env'. eapply delete_employee_absent; [reflexivity|exact Hi|].
      simpl. apply lookup_delete_eq.
  - rewrite (delete_employee_absent env emp_id w t Ht Hi He).
    split; reflexivity.
Qed.

(** ** Listing employees *)

#[local] Instance id_desc_total : Total id_desc.
Proof. intros a b. unfold id_desc. lia. Qed.

#[local] Instance id_desc_trans : Transitive id_desc.
Proof. intros a b c. unfold id_desc. lia. Qed.

Lemma id_desc_strict (l : list (Z * employee)) :
  StronglySorted id_desc l -> NoDup l.*1 -> StronglySorted id_above l.
Proof.
  induction 1 as [|a l Hs IH Hall]; intros Hnd; [constructor|].
  simpl in Hnd. apply NoDup_cons in Hnd as [Hnotin Hnd].
  constructor; [apply IH, Hnd|].
  rewrite Forall_forall in Hall |- *. intros b Hb.
  specialize (Hall b Hb). unfold id_desc in Hall. unfold id_above.
  assert (b.1 <> a.1); [|lia].
  intros E. apply Hnotin. rewrite <- E.
  apply list_elem_of_fmap. exists b. split; [reflexivity|exact Hb].
Qed.

(** The rows of a listing: all rows of the table, highest id first. *)
Lemma order_by_id_desc_scan (t : table employee) :
  (forall i e, (i, e) ∈ order_by_id_desc (scan t) <-> rows t !! i = Some e)
  /\ StronglySorted id_above (order_by_id_desc (scan t))
  /\ List.length (order_by_id_desc (scan t)) = size (rows t).
Proof.
  unfold order_by_id_desc, scan.
  pose proof (merge_sort_Permutation id_desc (map_to_list (rows t))) as Hp.
  split; [|split].
  - intros i e. rewrite Hp. apply elem_of_map_to_list.
  - apply id_desc_strict.
    + apply StronglySorted_merge_sort; apply _.
    + rewrite Hp. apply NoDup_fst_map_to_list.
  - rewrite Hp. apply length_map_to_list.
Qed.

Lemma basename_no_slash p :
  PyStr.has_char "/"%char (PyStr.basename p) = false.
Proof.
  unfold PyStr.basename.
  assert (H : forall s r, PyStr.after_last "/"%char s = Some r ->
                          PyStr.has_char "/"%char r = false).
  { induction s as [|c s IH]; simpl; [discriminate|]. intros r.
    destruct (PyStr.after_last "/" s) as [r'|] eqn:E.
    - intros [= <-]. apply IH. reflexivity.
    - destruct (Ascii.eqb c "/"); [|discriminate]. intros [= <-].
      clear IH. induction s as [|d s IH]; simpl in *; [reflexivity|].
      destruct (PyStr.after_last "/" s); [discriminate|].
      destruct (Ascii.eqb d "/"); [discriminate|]. simpl. apply IH.
      reflexivity. }
  destruct (PyStr.after_last "/" p) as [r|] eqn:E; [eapply H, E|].
  induction p as [|d s IH]; simpl in *; [reflexivity|].
  destruct (PyStr.after_last "/" s); [discriminate|].
  destruct (Ascii.eqb d "/"); [discriminate|]. simpl. apply IH.
  reflexivity.
Qed.

Lemma row_to_employee_dict_view row :
  row_to_employee_dict row = employee_view row.
Proof. destruct row as [i e]. reflexivity. Qed.

(** C6. When the employees table exists, the listing answers 200 with
    ok true and the views of exactly the rows of the table, by id
    descending, and changes nothing.  A view holds the id of its row,
    the name, email, department, role, roll number and time stamp of
    the row as they are, and a photo_url; it has these eight keys and
    no other, so no photo_path.  The photo_url is null when the row has
    no photo path, and "/uploads/" followed by the base name of the
    path when it has one; the base name holds no directory separator.
    Of the path only the base name reaches the response: two paths with
    the same base name give the same view. *)
Theorem list_employees_all_by_id_desc w t :
  employees (db w) = Some t ->
  exists rs,
    serve list_employees w
    = (Response 200
         (jsonify [("ok", JBool true);
                   ("employees", JArr (map employee_view rs))]),
       w)
    /\ (forall i e, (i, e) ∈ rs <-> rows t !! i = Some e)
    /\ StronglySorted id_above rs
    /\ List.length rs = size (rows t)
    /\ (forall i e,
          json_keys (row_to_employee_dict (i, e)) = EMPLOYEE_KEYS
          /\ assoc "id" (json_entries (row_to_employee_dict (i, e)))
             = Some (JInt i)
          /\ (Rows.photo_path e = None ->
              assoc "photo_url" (json_entries (row_to_employee_dict (i, e)))
              = Some JNull)
          /\ (forall p, Rows.photo_path e = Some p -> p <> EmptyString ->
              assoc "photo_url" (json_entries (row_to_employee_dict (i, e)))
              = Some (JStr ("/uploads/" +:+ PyStr.basename p))
              /\ PyStr.has_char "/"%char (PyStr.basename p) = false))
    /\ (forall i n m d r roll c p q,
          p <> EmptyString -> q <> EmptyString ->
          PyStr.basename p = PyStr.basename q ->
          row_to_employee_dict (i, Rows.Employee n m d r roll (Some p) c)
          = row_to_employee_dict (i, Rows.Employee n m d r roll (Some q) c)).
Proof.
  intros Ht. exists (order_by_id_desc (scan t)).
  destruct (order_by_id_desc_scan t) as (H1 & H2 & H3).
  split; [|split; [exact H1|split; [exact H2|split; [exact H3|split]]]].
  - unfold serve, list_employees, with_get_db, bind.
    rewrite from_run. simpl tget. rewrite Ht. cbv beta iota.
    unfold ret.
    rewrite (List.map_ext _ _ row_to_employee_dict_view). reflexivity.
  - intros i e. split; [reflexivity|]. split; [reflexivity|]. split.
    + intros Hn. simpl. rewrite Hn. reflexivity.
    + intros p Hp Hne. split; [|apply basename_no_slash].
      simpl. rewrite Hp. destruct p; [congruence|]. reflexivity.
  - intros i n m d r roll c p q Hp Hq Hb. simpl.
    destruct p; [congruence|]. destruct q; [congruence|].
    simpl PyStr.truthy. cbv iota. rewrite Hb. reflexivity.
Qed.

(** ** Login and the admin key *)

Lemma fetchone_select_where {A} (p : A -> bool) (t : table A) :
  (exists r, fetchone (select_where p t) = Some r)
  <-> exists i a, rows t !! i = Some a /\ p a = true.
Proof.
  unfold fetchone, select_where, scan. split.
  - intros ([i a] & Hr). apply head_Some_elem_of in Hr.
    apply list_elem_of_In, filter_In in Hr as [Hin Hp].
    exists i, a. split; [|exact Hp].
    apply elem_of_map_to_list, list_elem_of_In, Hin.
  - intros (i & a & Hl & Hp).
    destruct (List.filter _ (map_to_list (rows t))) as [|r l] eqn:E.
    + assert (Hin : In (i, a)
                      (List.filter (fun r => p r.2) (map_to_list (rows t)))).
      { apply filter_In. split; [|exact Hp].
        apply list_elem_of_In, elem_of_map_to_list, Hl. }
      rewrite E in Hin. destruct Hin.
    + exists r. reflexivity.
Qed.

(** C8. A login request, its two fields read as the empty string when
    absent, changes nothing.  When the users table exists the answer is
    200, with status success exactly when some row has this user name
    and this password, and status fail otherwise.  The answer is 500,
    with status error and the message of the failure, exactly when the
    users table cannot be read. *)
Theorem login_behaviour req w :
  let r := (serve (login req) w).1 in
  (serve (login req) w).2 = w
  /\ match users (db w) with
     | Some t =>
         (user_matches (credentials req) t ->
          r = Response 200 (jsonify [("status", JStr "success")]))
         /\ (~ user_matches (credentials req) t ->
             r = Response 200 (jsonify [("status", JStr "fail")]))
     | None =>
         r = Response 500
               (jsonify [("status", JStr "error");
                         ("message", JStr "no such table: users")])
     end
  /\ (status r = 500 <-> users (db w) = None).
Proof.
  unfold serve, login, try_except, with_get_db, bind.
  rewrite from_run. simpl tget.
  destruct (users (db w)) as [t|] eqn:Hu.
  - unfold ret at 1. cbv iota.
    set (p := fun u : user =>
                String.eqb (Rows.username u)
                  (or_empty (assoc "username" (form req)))
                && String.eqb (Rows.password u)
                     (or_empty (assoc "password" (form req)))).
    pose proof (fetchone_select_where p t) as Hf.
    assert (Hm : user_matches (credentials req) t
                 <-> exists i a, rows t !! i = Some a /\ p a = true).
    { unfold user_matches, credentials, p. simpl.
      split; intros (i & u & Hl & H); exists i, u; (split; [exact Hl|]).
      - destruct H as [-> ->]. rewrite !String.eqb_refl. reflexivity.
      - apply andb_true_iff in H as [H1 H2].
        apply String.eqb_eq in H1, H2. auto. }
    destruct (fetchone (select_where p t)) as [r|] eqn:E; simpl.
    + split; [reflexivity|]. split; [|split; discriminate].
      split; [reflexivity|]. intros Hn. exfalso. apply Hn, Hm, Hf. eauto.
    + split; [reflexivity|]. split; [|split; discriminate].
      split; [|reflexivity]. intros H. apply Hm, Hf in H as [r Hr].
      discriminate.
  - simpl. rewrite world_eta. split; [reflexivity|].
    split; [reflexivity|]. split; reflexivity.
Qed.

(** The key check on a body that is missing, is not JSON or does not
    parse is the check of the empty key; on an object with a string
    under "key" it is the check of that string.  Both answer 200 and
    change nothing when the admin table exists. *)
Lemma check_key_string req key w t :
  admin (db w) = Some t ->
  (get_json_silent req = None /\ key = EmptyString
   \/ exists entries,
        get_json_silent req = Some (JObj entries)
        /\ match assoc "key" entries with
           | Some v => v = JStr key
           | None => key = EmptyString
           end) ->
  (key_matches key t ->
   serve (check_key req) w
   = (Response 200 (jsonify [("ok", JBool true)]), w))
  /\ (~ key_matches key t ->
      serve (check_key req) w
      = (Response 200 (jsonify [("ok", JBool false)]), w)).
Proof.
  intros Ht Hbody.
  set (p := fun a : admin_key => text_eq (Rows.adminpass a) (VText key)).
  assert (Hrun : serve (check_key req) w
                 = (Response 200
                      (jsonify
                         [("ok",
                           JBool (match fetchone (select_where p t) with
                                  | Some _ => true
                                  | None => false
                                  end))]), w)).
  { unfold serve, check_key.
    assert (Hk : (match
                    match get_json_silent req with
                    | Some j => if json_truthy j then j else JObj []
                    | None => JObj []
                    end
                  with
                  | JObj entries =>
                      ret (match assoc "key" entries with
                           | Some v => v
                           | None => JStr EmptyString
                           end)
                  | _ => raise (AttributeError
                                  "object has no attribute 'get'")
                  end) = ret (JStr key)).
    { destruct Hbody as [[Hb Hk]|(entries & Hb & Hk)]; rewrite Hb.
      - rewrite Hk. reflexivity.
      - destruct entries as [|kv entries]; simpl json_truthy; cbv iota.
        + simpl in Hk. rewrite Hk. reflexivity.
        + destruct (assoc "key" (kv :: entries)); rewrite Hk;
            reflexivity. }
    unfold bind at 1. rewrite Hk. unfold ret at 1. cbv iota.
    unfold with_get_db, bind. rewrite from_run. simpl tget. rewrite Ht.
    reflexivity. }
  rewrite Hrun. pose proof (fetchone_select_where p t) as Hf.
  assert (Hm : key_matches key t
               <-> exists i a, rows t !! i = Some a /\ p a = true).
  { unfold key_matches, p. simpl.
    split; intros (i & a & Hl & H); exists i, a; (split; [exact Hl|]).
    - rewrite H. apply String.eqb_refl.
    - apply String.eqb_eq, H. }
  destruct (fetchone (select_where p t)) as [r|] eqn:E.
  - split; [reflexivity|]. intros Hn. exfalso. apply Hn, Hm, Hf. eauto.
  - split; [|reflexivity]. intros H. apply Hm, Hf in H as [r Hr].
    discriminate.
Qed.

(** C7. A body that is well-formed JSON but not an object, here the
    array [[1]], makes the handler raise: the answer is a 500, whatever
    the database holds. *)
Theorem check_key_json_array_500 w :
  serve
    (check_key (Request [] [] (Some (JArr [JInt 1])))) w
  = (internal_server_error, w)
  /\ status internal_server_error = 500.
Proof. split; reflexivity. Qed.

(** ** Every handler but two leaves the world alone *)

(** A computation that does not change the world. *)
Lemma read_only_ret {A} (a : A) w : (ret a w).2 = w.
Proof. reflexivity. Qed.

Lemma read_only_raise {A} e w : (@raise A e w).2 = w.
Proof. reflexivity. Qed.

Lemma read_only_bind {A B} (m : M A) (k : A -> M B) w :
  (forall w0, (m w0).2 = w0) -> (forall a w0, (k a w0).2 = w0) ->
  (bind m k w).2 = w.
Proof.
  intros Hm Hk. unfold bind. specialize (Hm w).
  destruct (m w) as [[a|e] w']; simpl in Hm; subst w'; [apply Hk|].
  reflexivity.
Qed.

Lemma read_only_try_except {A} (m : M A) (h : exn -> M A) w :
  (forall w0, (m w0).2 = w0) -> (forall e w0, (h e w0).2 = w0) ->
  (try_except m h w).2 = w.
Proof.
  intros Hm Hh. unfold try_except. specialize (Hm w).
  destruct (m w) as [[a|e] w']; simpl in Hm; subst w'; [|apply Hh].
  reflexivity.
Qed.

Lemma read_only_with_get_db {A} (m : M A) w :
  (forall w0, (m w0).2 = w0) -> (with_get_db m w).2 = w.
Proof.
  intros Hm. unfold with_get_db. specialize (Hm w).
  destruct (m w) as [[a|e] w']; simpl in Hm; subst w'; simpl;
    [|apply world_eta]. reflexivity.
Qed.

Lemma read_only_from {A} (s : schema A) w : (from s w).2 = w.
Proof. rewrite from_run. destruct (tget s (db w)); reflexivity. Qed.

Lemma read_only_path_exists p w : (path_exists CWD p w).2 = w.
Proof. reflexivity. Qed.

Lemma read_only_send_file p w : (send_file CWD p w).2 = w.
Proof.
  unfold send_file, bind, get_world.
  destruct (lookup_file CWD (fs w) p); reflexivity.
Qed.

Lemma read_only_serve (h : M response) w :
  (forall w0, (h w0).2 = w0) -> (serve h w).2 = w.
Proof.
  intros Hh. unfold serve. specialize (Hh w).
  destruct (h w) as [[a|e] w']; exact Hh.
Qed.

Ltac read_only :=
  repeat
    (intros;
     lazymatch goal with
     | |- (serve _ _).2 = _ => apply read_only_serve
     | |- (with_get_db _ _).2 = _ => apply read_only_with_get_db
     | |- (try_except _ _ _).2 = _ => apply read_only_try_except
     | |- (from _ _).2 = _ => apply read_only_from
     | |- (path_exists _ _ _).2 = _ => apply read_only_path_exists
     | |- (send_file _ _ _).2 = _ => apply read_only_send_file
     | |- (bind _ _ _).2 = _ => apply read_only_bind
     | |- (ret _ _).2 = _ => apply read_only_ret
     | |- (raise _ _).2 = _ => apply read_only_raise
     | |- context [match ?x with _ => _ end] => destruct x
     end).

Lemma index_read_only w : (serve (index APP_DIR CWD) w).2 = w.
Proof. unfold index. read_only. Qed.

Lemma static_files_read_only path w :
  (serve (static_files APP_DIR CWD path) w).2 = w.
Proof. unfold static_files. read_only. Qed.

Lemma get_upload_read_only fname w :
  (serve (get_upload APP_DIR CWD fname) w).2 = w.
Proof. unfold get_upload. read_only. Qed.

Lemma login_read_only req w : (serve (login req) w).2 = w.
Proof. unfold login. cbv zeta. read_only. Qed.

Lemma check_key_read_only req w : (serve (check_key req) w).2 = w.
Proof. unfold check_key, bind_parameter. cbv zeta. read_only. Qed.

Lemma list_employees_read_only w : (serve list_employees w).2 = w.
Proof. unfold list_employees. read_only. Qed.

Lemma get_employee_read_only emp_id w :
  (serve (get_employee emp_id) w).2 = w.
Proof. unfold get_employee, bind_int. read_only. Qed.

(** ** The roll number is unique *)

(** Every answer of the create handler either leaves the database as
    it was, or is the answer of the insertion, in a world that differs
    from the first by at most the saved photo; the photo path is then
    null or a path made by joining a name to the upload directory. *)
Lemma create_employee_cases env req w :
  db (serve (create env req) w).2 = db w
  \/ exists photo f,
       serve (create env req) w
       = insertion_outcome env req photo (World (db w) f)
       /\ (photo = None
           \/ exists fname,
                photo = Some (Path.join (UPLOAD_DIR APP_DIR) fname)).
Proof.
  open_create_keep req.
  destruct (missing_fields (form req)) as [|k ks]; [|left; reflexivity].
  destruct (assoc "photo" (files req)) as [ph|].
  2:{ right. exists None, (fs w). rewrite world_eta.
      split; [apply insertion_run|left; reflexivity]. }
  destruct (filename ph) as [|c fname] eqn:Ef.
  { right. exists None, (fs w). rewrite world_eta.
    split; [apply insertion_run|left; reflexivity]. }
  simpl PyStr.truthy. cbv iota.
  destruct (allowed_file (String c fname)); [|left; reflexivity].
  simpl negb. cbv iota.
  destruct (PyStr.rsplit1 "." (String c fname) !! 1%nat) as [e|];
    [|left; reflexivity].
  destruct (save_error env) as [[msg|msg n]|] eqn:Hs.
  - left. unfold serve, try_except, bind, ret, save. rewrite Hs.
    reflexivity.
  - left. unfold serve, try_except, bind, ret, save. rewrite Hs.
    reflexivity.
  - right. eexists (Some _), _. split; [|right; eexists; reflexivity].
    rewrite <- insertion_run.
    unfold serve, try_except, bind, ret, save. rewrite Hs. reflexivity.
Qed.

Lemma insertion_outcome_db env req photo w :
  db (insertion_outcome env req photo w).2 = db w
  \/ exists t,
       employees (db w) = Some t
       /\ roll_taken (form_field req "roll_number") t = false
       /\ db (insertion_outcome env req photo w).2
          = with_employees
              (Sqlite.insert (new_row env req photo) t).1 (db w).
Proof.
  unfold insertion_outcome.
  destruct (employees (db w)) as [t|]; [|left; reflexivity].
  destruct (roll_taken _ t) eqn:E; [left; reflexivity|].
  right. exists t. auto.
Qed.




(** What an event does to the employees table: nothing; or it creates
    the table, empty; or it deletes one id; or it inserts the row of a
    create request whose roll number was free. *)
Lemma run_employees e w :
  employees (db (run APP_DIR CWD secure_filename e w)) = employees (db w)
  \/ (employees (db w) = None
      /\ employees (db (run APP_DIR CWD secure_filename e w))
         = Some empty_table)
  \/ (exists t i,
        employees (db w) = Some t
        /\ employees (db (run APP_DIR CWD secure_filename e w))
           = Some (delete_id i t))
  \/ (exists t env req photo,
        employees (db w) = Some t
        /\ roll_taken (form_field req "roll_number") t = false
        /\ (photo = None
            \/ exists fname,
                 photo = Some (Path.join (UPLOAD_DIR APP_DIR) fname))
        /\ employees (db (run APP_DIR CWD secure_filename e w))
           = Some (Sqlite.insert (new_row env req photo) t).1).
Proof.
  destruct e; simpl.
  - rewrite init_db_run. simpl.
    destruct (employees (db w)) as [t|] eqn:E; simpl; auto.
  - rewrite index_read_only. auto.
  - rewrite static_files_read_only. auto.
  - rewrite get_upload_read_only. auto.
  - rewrite login_read_only. auto.
  - rewrite check_key_read_only. auto.
  - destruct (create_employee_cases env req w)
      as [->|(photo & f & -> & Hphoto)]; [auto|].
    destruct (insertion_outcome_db env req photo (World (db w) f))
      as [Hd|(t & Ht & Hf & Hd)]; rewrite Hd; simpl; [auto|].
    right. right. right. exists t, env, req, photo. auto.
  - rewrite list_employees_read_only. auto.
  - rewrite get_employee_read_only. auto.
  - destruct (employees (db w)) as [t|] eqn:Ht.
    + destruct (int64 emp_id) eqn:Hi;
        [|rewrite (delete_employee_overflow env emp_id w t Ht Hi); auto].
      destruct (rows t !! emp_id) as [e|] eqn:He.
      * rewrite (delete_employee_present env emp_id w t e Ht Hi He). simpl.
        right. right. left. exists t, emp_id. auto.
      * rewrite (delete_employee_absent env emp_id w t Ht Hi He). auto.
    + rewrite (delete_employee_no_table env emp_id w Ht). auto.
Qed.

(** A property of the employees table that holds of the empty table and
    that deletions and the insertions of the create handler keep holds
    in every reachable world. *)
Lemma reachable_employees (P : table employee -> Prop) :
  P empty_table ->
  (forall t i, P t -> P (delete_id i t)) ->
  (forall t env req photo,
     P t -> roll_taken (form_field req "roll_number") t = false ->
     (photo = None
      \/ exists fname,
           photo = Some (Path.join (UPLOAD_DIR APP_DIR) fname)) ->
     P (Sqlite.insert (new_row env req photo) t).1) ->
  forall w, reachable APP_DIR CWD secure_filename w ->
            forall t, employees (db w) = Some t -> P t.
Proof.
  intros Hempty Hdelete Hinsert w Hr.
  induction Hr as [f|e w _ IH]; [discriminate|].
  intros t'.
  destruct (run_employees e w)
    as [->|[[_ ->]|[(t & i & Ht & ->)|(t & env & req & photo
                                        & Ht & Hf & Hp & ->)]]].
  - apply IH.
  - intros [= <-]. exact Hempty.
  - intros [= <-]. apply Hdelete, IH, Ht.
  - intros [= <-]. apply Hinsert; [apply IH, Ht|exact Hf|exact Hp].
Qed.


Lemma pure_nonempty p : Path.pure p <> EmptyString.
Proof.
  unfold Path.pure. destruct (Path.is_abs p); [discriminate|].
  destruct (Path.parts p) as [|x l] eqn:E; [discriminate|].
  assert (Hx : x <> EmptyString).
  { assert (Hin : In x (Path.parts p)) by (rewrite E; left; reflexivity).
    unfold Path.parts in Hin.
    apply (proj1 (filter_In _ _ _)) in Hin. destruct Hin as [_ Hin].
    intros ->. discriminate. }
  unfold PyStr.join. simpl. destruct l; [exact Hx|].
  destruct x; [congruence|discriminate].
Qed.

Lemma join_nonempty a b : Path.join a b <> EmptyString.
Proof. unfold Path.join. destruct (Path.is_abs b); apply pure_nonempty. Qed.

(** In every reachable world a row has no photo path or one that is not
    the empty string. *)
Lemma reachable_photo_paths w :
  reachable APP_DIR CWD secure_filename w ->
  forall t i e, employees (db w) = Some t -> rows t !! i = Some e ->
                Rows.photo_path e <> Some EmptyString.
Proof.
  intros Hr t i e Ht. revert i e.
  refine (reachable_employees
            (fun t => forall i e, rows t !! i = Some e ->
                                  Rows.photo_path e <> Some EmptyString)
            _ _ _ w Hr t Ht).
  - intros i e H. simpl in H. rewrite lookup_empty in H. discriminate.
  - intros t0 j H i e. unfold delete_id. simpl. rewrite lookup_delete.
    destruct (decide (j = i)); [discriminate|apply H].
  - intros t0 env req photo H _ Hp i e. unfold Sqlite.insert. simpl.
    rewrite lookup_insert. destruct (decide (next_rowid t0 = i)).
    + intros [= <-]. simpl.
      destruct Hp as [->|(fname & ->)]; [discriminate|].
      intros [= Hj]. exact (join_nonempty _ _ Hj).
    + apply H.
Qed.

(** The static route sends whatever file the joined path names: nothing
    keeps it in the application directory. *)
Lemma static_files_serves_any path data w :
  lookup_file CWD (fs w) (Path.join APP_DIR path) = Some data ->
  serve (static_files APP_DIR CWD path) w
  = (Response 200
       (FileOf (Path.realpath CWD (Path.join APP_DIR path)) data), w).
Proof.
  intros H. unfold serve, static_files, path_exists, send_file.
  unfold bind, get_world, ret. cbv beta iota zeta. rewrite H.
  cbv beta iota. rewrite H. reflexivity.
Qed.

(** The upload route sends only files of the upload directory. *)
Lemma get_upload_confined fname w path data :
  (serve (get_upload APP_DIR CWD fname) w).1
  = Response 200 (FileOf path data) ->
  exists p, path = Path.realpath CWD p
            /\ Path.within CWD (UPLOAD_DIR APP_DIR) p = true.
Proof.
  unfold get_upload.
  destruct (safe_join (UPLOAD_DIR APP_DIR) fname) as [p|] eqn:E;
    [|discriminate].
  apply (safe_join_within CWD) in E; [|apply join_nonempty].
  unfold serve, bind, path_exists, send_file, get_world, ret, raise, bind.
  simpl. destruct (lookup_file CWD (fs w) p) as [d|] eqn:El; simpl;
    [|discriminate].
  rewrite El. simpl. intros H. inversion H; subst. exists p. auto.
Qed.




(** ** Reading one employee *)

Lemma get_employee_run emp_id w :
  serve (get_employee emp_id) w
  = (match employees (db w) with
     | None => internal_server_error
     | Some t =>
         if int64 emp_id then
           match rows t !! emp_id with
           | None => failed 404 "Not found"
           | Some e => found (emp_id, e)
           end
         else internal_server_error
     end, w).
Proof.
  unfold serve, get_employee, with_get_db, bind, bind_int.
  rewrite from_run. simpl tget.
  destruct (employees (db w)) as [t|]; simpl; [|rewrite world_eta; reflexivity].
  destruct (int64 emp_id); simpl; [|rewrite world_eta; reflexivity].
  unfold select_id. destruct (rows t !! emp_id); reflexivity.
Qed.



(** X1. Reading an employee changes nothing.  With the table in place,
    an id that fits 64 bits and is not there gets a 404 with ok false
    and the message "Not found"; one that is there gets a 200 with ok
    true and the view of its row, whose id is the id asked for.  An id
    that does not fit 64 bits gets the framework's 500: binding it to
    the statement raises [OverflowError], which nothing catches. *)
Theorem get_employee_behaviour emp_id w t :
  employees (db w) = Some t ->
  (serve (get_employee emp_id) w).2 = w
  /\ (int64 emp_id = true -> rows t !! emp_id = None ->
      (serve (get_employee emp_id) w).1 = failed 404 "Not found")
  /\ (int64 emp_id = true -> forall e, rows t !! emp_id = Some e ->
        (serve (get_employee emp_id) w).1 = found (emp_id, e)
        /\ assoc "id" (json_entries (row_to_employee_dict (emp_id, e)))
           = Some (JInt emp_id))
  /\ (int64 emp_id = false ->
      (serve (get_employee emp_id) w).1 = internal_server_error).
Proof.
  intros Ht. rewrite get_employee_run, Ht. cbn [fst snd].
  split; [reflexivity|]. split; [|split].
  - intros -> ->. reflexivity.
  - intros -> e ->. split; reflexivity.
  - intros ->. reflexivity.
Qed.

Lemma list_employees_run w t :
  employees (db w) = Some t ->
  serve list_employees w
  = (Response 200
       (jsonify [("ok", JBool true);
                 ("employees",
                  JArr (map row_to_employee_dict
                          (order_by_id_desc (scan t))))]), w).
Proof.
  intros Ht. unfold serve, list_employees, with_get_db, bind.
  rewrite from_run. simpl tget. rewrite Ht. reflexivity.
Qed.

Lemma listed_run w t :
  employees (db w) = Some t ->
  listed w = map row_to_employee_dict (order_by_id_desc (scan t)).
Proof. intros Ht. unfold listed. rewrite (list_employees_run w t Ht).
       reflexivity. Qed.

Lemma row_to_employee_dict_id i e j e' :
  row_to_employee_dict (i, e) = row_to_employee_dict (j, e') -> i = j.
Proof. simpl. intros H. injection H. auto. Qed.

(** X2. The listing and the single read agree: with the table in place,
    an object is in the listing under an id [i] that fits 64 bits, as
    every rowid of SQLite does, exactly when reading [i] answers 200
    with that object. *)
Theorem list_get_agree w t i v :
  employees (db w) = Some t ->
  (v ∈ listed w /\ assoc "id" (json_entries v) = Some (JInt i)
   /\ int64 i = true)
  <-> (serve (get_employee i) w).1
      = Response 200 (jsonify [("ok", JBool true); ("employee", v)]).
Proof.
  intros Ht.
  rewrite (listed_run w t Ht), get_employee_run, Ht. cbn [fst].
  destruct (order_by_id_desc_scan t) as (Hmem & _ & _). split.
  - intros (Hin & Hid & Hi).
    apply list_elem_of_fmap in Hin as ([j e] & -> & Hin).
    simpl in Hid. injection Hid as ->. apply Hmem in Hin.
    rewrite Hi, Hin. reflexivity.
  - destruct (int64 i); [|discriminate].
    destruct (rows t !! i) as [e|] eqn:He; [|discriminate].
    unfold found. intros H.
    assert (Hv : v = row_to_employee_dict (i, e)) by (injection H; auto).
    subst v. split; [|split; reflexivity].
    apply list_elem_of_fmap. exists (i, e). split; [reflexivity|].
    apply Hmem, He.
Qed.

(** Two lists by id descending with the same rows are the same list. *)
Lemma id_above_unique (l1 l2 : list (Z * employee)) :
  StronglySorted id_above l1 -> StronglySorted id_above l2 ->
  (forall x, x ∈ l1 <-> x ∈ l2) -> l1 = l2.
Proof.
  intros H1. revert l2. induction H1 as [|a l1 Hs1 IH Ha]; intros l2 H2 Hm.
  - destruct l2 as [|b l2]; [reflexivity|].
    assert (Hb : b ∈ []) by (apply Hm; left). inversion Hb.
  - destruct H2 as [|b l2 Hs2 Hb].
    { assert (Hin : a ∈ []) by (apply Hm; left). inversion Hin. }
    rewrite Forall_forall in Ha, Hb.
    assert (Hab : a = b).
    { assert (Ha' : a ∈ b :: l2) by (apply Hm; left).
      assert (Hb' : b ∈ a :: l1) by (apply Hm; left).
      apply elem_of_cons in Ha' as [E|Ha']; [exact E|].
      apply elem_of_cons in Hb' as [E|Hb']; [symmetry; exact E|].
      specialize (Ha b Hb'). specialize (Hb a Ha').
      unfold id_above in Ha, Hb. lia. }
    subst b. f_equal. apply IH; [exact Hs2|].
    intros x. split; intros Hx.
    + assert (Hx' : x ∈ a :: l2) by (apply Hm; right; exact Hx).
      apply elem_of_cons in Hx' as [->|Hx']; [|exact Hx'].
      specialize (Ha a Hx). unfold id_above in Ha. lia.
    + assert (Hx' : x ∈ a :: l1) by (apply Hm; right; exact Hx).
      apply elem_of_cons in Hx' as [->|Hx']; [|exact Hx'].
      specialize (Hb a Hx). unfold id_above in Hb. lia.
Qed.


(** The listing of a table without one id. *)
Lemma order_by_id_desc_delete (t : table employee) i :
  order_by_id_desc (scan (delete_id i t))
  = filter (fun r : Z * employee => r.1 <> i) (order_by_id_desc (scan t)).
Proof.
  destruct (order_by_id_desc_scan (delete_id i t)) as (Hm' & Hs' & _).
  destruct (order_by_id_desc_scan t) as (Hm & Hs & _).
  apply id_above_unique; [exact Hs'| |].
  - clear Hm Hm' Hs'. induction Hs as [|a l Hs IH Ha]; [constructor|].
    rewrite filter_cons. destruct (decide (a.1 <> i)); [|exact IH].
    constructor; [exact IH|]. rewrite Forall_forall in Ha |- *.
    intros x Hx. apply list_elem_of_filter in Hx as [_ Hx]. auto.
  - intros [j e']. rewrite Hm', list_elem_of_filter, Hm.
    unfold delete_id. simpl. rewrite lookup_delete.
    destruct (decide (i = j)) as [->|Hne]; simpl.
    + split; [discriminate|]. intros [H _]. congruence.
    + split; [intros H; split; [congruence|exact H]|intros [_ H]; exact H].
Qed.

(** ** Creating, then reading *)

(** A request that passes validation is answered by the insertion, made
    in the world that holds its photo. *)
Lemma create_employee_accepted env req w :
  missing_fields (form req) = [] ->
  photo_accepted env req ->
  serve (create env req) w
  = insertion_outcome env req
      (stored_photo APP_DIR secure_filename env req)
      (World (db w)
         (saved_files APP_DIR CWD secure_filename env req (fs w))).
Proof.
  intros Hm Hp. unfold photo_accepted in Hp.
  unfold stored_photo, saved_files.
  destruct (assoc "photo" (files req)) as [ph|] eqn:Ea.
  2:{ rewrite world_eta. apply create_employee_no_photo; auto. }
  destruct (filename ph) as [|c fname] eqn:Ef.
  { simpl. rewrite world_eta. apply create_employee_no_photo; eauto. }
  destruct Hp as [Hn|[Ha Hs]]; [discriminate|]. simpl PyStr.truthy.
  cbv iota. unfold photo_save_path, photo_name, photo_extension.
  rewrite Ef.
  destruct (PyStr.rsplit1 "." (String c fname) !! 1%nat) as [e|] eqn:He.
  2:{ unfold allowed_file in Ha. rewrite He, andb_false_r in Ha.
      discriminate. }
  open_create_keep req. rewrite Hm, Ea, Ef.
  simpl PyStr.truthy. cbv iota. rewrite Ha. simpl negb. cbv iota.
  rewrite He. rewrite <- insertion_run.
  unfold serve, try_except, bind, ret, save. rewrite Hs. reflexivity.
Qed.

(** Every answer of the create handler: a 201 with the row inserted under
    the next id, or another status with the database as it was. *)
Lemma create_employee_outcomes env req w :
  (db (serve (create env req) w).2 = db w
   /\ status (serve (create env req) w).1 <> 201)
  \/ exists t photo f,
       employees (db w) = Some t
       /\ missing_fields (form req) = []
       /\ roll_taken (form_field req "roll_number") t = false
       /\ serve (create env req) w
          = (created (next_rowid t) (photo_url_of photo),
             World (with_employees
                      (Sqlite.insert (new_row env req photo) t).1 (db w))
                   f).
Proof.
  assert (Hins : forall photo f,
             (db (insertion_outcome env req photo (World (db w) f)).2 = db w
              /\ status (insertion_outcome env req photo
                           (World (db w) f)).1 <> 201)
             \/ exists t,
                  employees (db w) = Some t
                  /\ roll_taken (form_field req "roll_number") t = false
                  /\ insertion_outcome env req photo (World (db w) f)
                     = (created (next_rowid t) (photo_url_of photo),
                        World (with_employees
                                 (Sqlite.insert (new_row env req photo) t).1
                                 (db w)) f)).
  { intros photo f. unfold insertion_outcome. simpl db.
    destruct (employees (db w)) as [t|];
      [|left; split; [reflexivity|discriminate]].
    destruct (roll_taken _ t) eqn:E;
      [left; split; [reflexivity|discriminate]|].
    right. exists t. auto. }
  destruct (missing_fields (form req)) as [|k ks] eqn:Hm.
  2:{ left. open_create_keep req. rewrite Hm.
      split; [reflexivity|discriminate]. }
  assert (Hnone : serve (create env req) w
                  = insertion_outcome env req None (World (db w) (fs w)) ->
                  (db (serve (create env req) w).2 = db w
                   /\ status (serve (create env req) w).1 <> 201)
                  \/ exists t photo f,
                       employees (db w) = Some t
                       /\ @nil string = []
                       /\ roll_taken (form_field req "roll_number") t = false
                       /\ serve (create env req) w
                          = (created (next_rowid t) (photo_url_of photo),
                             World (with_employees
                                      (Sqlite.insert
                                         (new_row env req photo) t).1 (db w))
                                   f)).
  { intros ->. destruct (Hins None (fs w)) as [H|(t & Ht & Hf & ->)];
      [left; exact H|]. right. exists t, None, (fs w). auto. }
  destruct (assoc "photo" (files req)) as [ph|] eqn:Ea.
  2:{ apply Hnone. rewrite world_eta.
      apply create_employee_no_photo; auto. }
  destruct (filename ph) as [|c fname] eqn:Ef.
  { apply Hnone. rewrite world_eta.
    apply create_employee_no_photo; eauto. }
  destruct (allowed_file (String c fname)) eqn:Ha.
  2:{ left. open_create_keep req. rewrite Hm, Ea, Ef.
      simpl PyStr.truthy. cbv iota. rewrite Ha.
      split; [reflexivity|discriminate]. }
  destruct (save_error env) as [[msg|msg n]|] eqn:Hs.
  - left. open_create_keep req. rewrite Hm, Ea, Ef.
    simpl PyStr.truthy. cbv iota. rewrite Ha. simpl negb. cbv iota.
    destruct (PyStr.rsplit1 "." (String c fname) !! 1%nat) as [e|];
      [|split; [reflexivity|discriminate]].
    unfold serve, try_except, bind, ret, save. rewrite Hs.
    split; [reflexivity|discriminate].
  - left. open_create_keep req. rewrite Hm, Ea, Ef.
    simpl PyStr.truthy. cbv iota. rewrite Ha. simpl negb. cbv iota.
    destruct (PyStr.rsplit1 "." (String c fname) !! 1%nat) as [e|];
      [|split; [reflexivity|discriminate]].
    unfold serve, try_except, bind, ret, save. rewrite Hs.
    split; [reflexivity|discriminate].
  - rewrite (create_employee_accepted env req w Hm).
    2:{ unfold photo_accepted. rewrite Ea, Ef. right. auto. }
    destruct (Hins (stored_photo APP_DIR secure_filename env req)
                (saved_files APP_DIR CWD secure_filename env req (fs w)))
      as [H|(t & Ht & Hf & ->)]; [left; exact H|].
    right. eexists t, _, _. auto.
Qed.



Lemma has_id_view i j e : has_id i (row_to_employee_dict (j, e)) = (j =? i).
Proof. reflexivity. Qed.

Lemma filter_views i (l : list (Z * employee)) :
  List.filter (fun v => negb (has_id i v)) (map row_to_employee_dict l)
  = map row_to_employee_dict
      (filter (fun r : Z * employee => r.1 <> i) l).
Proof.
  induction l as [|[j e] l IH]; [reflexivity|].
  rewrite filter_cons. cbn [map List.filter]. rewrite has_id_view, IH.
  simpl fst. destruct (decide (j <> i)) as [Hne|Heq].
  - apply Z.eqb_neq in Hne. rewrite Hne. reflexivity.
  - assert (E : j = i) by lia. apply Z.eqb_eq in E. rewrite E. reflexivity.
Qed.

(** X5. A deleted employee is gone from both reads: after the deletion of
    an id that was in the table, and fits 64 bits as every rowid of
    SQLite does, reading it gets a 404, reading any other id answers as
    before, and the listing is the listing as it was without the object
    of that id. *)
Theorem delete_then_read env i w t e :
  employees (db w) = Some t ->
  rows t !! i = Some e ->
  int64 i = true ->
  let w' := (serve (delete_emp env i) w).2 in
  (serve (get_employee i) w').1 = failed 404 "Not found"
  /\ (forall j, j <> i ->
        (serve (get_employee j) w').1 = (serve (get_employee j) w).1)
  /\ listed w' = List.filter (fun v => negb (has_id i v)) (listed w).
Proof.
  intros Ht He Hi w'. subst w'.
  rewrite (delete_employee_present env i w t e Ht Hi He).
  split; [|split].
  - rewrite get_employee_run. simpl. rewrite Hi, lookup_delete_eq.
    reflexivity.
  - intros j Hj. rewrite !get_employee_run, Ht. simpl.
    rewrite lookup_delete_ne by congruence. reflexivity.
  - etransitivity.
    + apply (listed_run _ (delete_id i t)). reflexivity.
    + rewrite order_by_id_desc_delete, (listed_run w t Ht), filter_views.
      reflexivity.
Qed.

(** ** Ids are never handed out twice *)

Lemma run_seq e w t :
  employees (db w) = Some t ->
  exists t', employees (db (run APP_DIR CWD secure_filename e w)) = Some t'
             /\ seq t <= seq t'.
Proof.
  intros Ht.
  destruct (run_employees e w)
    as [H|[[Hn _]|[(t0 & i & Ht0 & H)|(t0 & env & req & photo
                                       & Ht0 & _ & _ & H)]]].
  - exists t. rewrite H. split; [exact Ht|lia].
  - congruence.
  - rewrite H. assert (t0 = t) by congruence. subst t0.
    eexists. split; [reflexivity|]. simpl. lia.
  - rewrite H. assert (t0 = t) by congruence. subst t0.
    eexists. split; [reflexivity|]. simpl. unfold next_rowid. lia.
Qed.

Lemma run_all_seq es w t :
  employees (db w) = Some t ->
  exists t', employees (db (run_all APP_DIR CWD secure_filename es w))
             = Some t'
             /\ seq t <= seq t'.
Proof.
  revert w t. induction es as [|e es IH]; intros w t Ht.
  - exists t. split; [exact Ht|lia].
  - simpl. destruct (run_seq e w t Ht) as (t1 & Ht1 & H1).
    destruct (IH _ t1 Ht1) as (t2 & Ht2 & H2).
    exists t2. split; [exact Ht2|lia].
Qed.

(** X6. Employee ids grow: when a creation is answered 201 with id [i]
    and, after any events whatever (deletions of the newest rows and
    restarts among them), another creation is answered 201 with id [j],
    then [i < j].  No id is handed out twice. *)
Theorem employee_ids_increase env req env' req' es w i j u u' :
  (serve (create env req) w).1 = created i u ->
  (serve (create env' req')
     (run_all APP_DIR CWD secure_filename es
        (serve (create env req) w).2)).1 = created j u' ->
  i < j.
Proof.
  intros H1 H2.
  set (w1 := (serve (create env req) w).2) in *.
  destruct (create_employee_outcomes env req w)
    as [[_ Hs]|(t & photo & f & Ht & _ & _ & E)].
  { rewrite H1 in Hs. simpl in Hs. congruence. }
  assert (Hi : next_rowid t = i).
  { rewrite E in H1. simpl in H1. injection H1. auto. }
  assert (Hw1 : employees (db w1)
                = Some (Sqlite.insert (new_row env req photo) t).1).
  { unfold w1. rewrite E. reflexivity. }
  destruct (run_all_seq es w1 _ Hw1) as (t2 & Ht2 & Hle).
  simpl in Hle.
  destruct (create_employee_outcomes env' req'
              (run_all APP_DIR CWD secure_filename es w1))
    as [[_ Hs]|(t3 & photo' & f' & Ht3 & _ & _ & E')].
  { rewrite H2 in Hs. simpl in Hs. congruence. }
  rewrite E' in H2. simpl in H2.
  assert (Hj : next_rowid t3 = j) by (injection H2; auto).
  assert (t3 = t2) by congruence. subst t3.
  unfold next_rowid in Hj. lia.
Qed.

(** ** What requests leave alone *)

(** X7. Requests for the index, for a static file, for an upload, for the
    listing or one employee, a login and a key check leave the world
    exactly as it was: the database and every file. *)
Theorem reading_leaves_world e w :
  mutating e = false -> run APP_DIR CWD secure_filename e w = w.
Proof.
  destruct e; simpl; try discriminate; intros _.
  - apply index_read_only.
  - apply static_files_read_only.
  - apply get_upload_read_only.
  - apply login_read_only.
  - apply check_key_read_only.
  - apply list_employees_read_only.
  - apply get_employee_read_only.
Qed.

Lemma run_accounts e w :
  e = Startup
  \/ (users (db (run APP_DIR CWD secure_filename e w)) = users (db w)
      /\ admin (db (run APP_DIR CWD secure_filename e w)) = admin (db w)).
Proof.
  destruct e; [left; reflexivity|right..]; simpl.
  - rewrite index_read_only. auto.
  - rewrite static_files_read_only. auto.
  - rewrite get_upload_read_only. auto.
  - rewrite login_read_only. auto.
  - rewrite check_key_read_only. auto.
  - destruct (create_employee_outcomes env req w)
      as [[-> _]|(t & photo & f & _ & _ & _ & ->)]; auto.
  - rewrite list_employees_read_only. auto.
  - rewrite get_employee_read_only. auto.
  - destruct (employees (db w)) as [t|] eqn:Ht.
    + destruct (int64 emp_id) eqn:Hi;
        [|rewrite (delete_employee_overflow env emp_id w t Ht Hi); auto].
      destruct (rows t !! emp_id) as [e|] eqn:He.
      * rewrite (delete_employee_present env emp_id w t e Ht Hi He). auto.
      * rewrite (delete_employee_absent env emp_id w t Ht Hi He). auto.
    + rewrite (delete_employee_no_table env emp_id w Ht). auto.
Qed.

(** X8. No request touches the accounts: after any requests whatever,
    creations and deletions among them, the users table and the admin
    table are what they were. *)
Theorem requests_keep_accounts es w :
  Forall is_request es ->
  users (db (run_all APP_DIR CWD secure_filename es w)) = users (db w)
  /\ admin (db (run_all APP_DIR CWD secure_filename es w)) = admin (db w).
Proof.
  intros H. revert w. induction H as [|e es He _ IH]; intros w.
  - split; reflexivity.
  - simpl. destruct (IH (run APP_DIR CWD secure_filename e w)) as [-> ->].
    destruct (run_accounts e w) as [E|H]; [|exact H].
    destruct (He E).
Qed.

Lemma seed_users_first :
  seed_if_empty (Rows.User "hidan" "killer") empty_table = seeded_users.
Proof. reflexivity. Qed.

Lemma seed_admin_first :
  seed_if_empty (Rows.AdminKey "ceo@2025") empty_table = seeded_admin.
Proof. reflexivity. Qed.

Lemma seed_users_again :
  seed_if_empty (Rows.User "hidan" "killer") seeded_users = seeded_users.
Proof. reflexivity. Qed.

Lemma seed_admin_again :
  seed_if_empty (Rows.AdminKey "ceo@2025") seeded_admin = seeded_admin.
Proof. reflexivity. Qed.

(** In every reachable world the accounts are the seeded ones. *)
Lemma reachable_accounts w :
  reachable APP_DIR CWD secure_filename w -> accounts_seeded w.
Proof.
  induction 1 as [f|e w _ [IHu IHa]].
  - split; left; reflexivity.
  - destruct (run_accounts e w) as [->|[Hu Ha]].
    + simpl. rewrite init_db_run. unfold accounts_seeded. simpl. split; right.
      * destruct IHu as [->| ->]; simpl;
          [rewrite seed_users_first|rewrite seed_users_again]; reflexivity.
      * destruct IHa as [->| ->]; simpl;
          [rewrite seed_admin_first|rewrite seed_admin_again]; reflexivity.
    + unfold accounts_seeded. rewrite Hu, Ha. auto.
Qed.

Lemma login_run req w :
  serve (login req) w
  = (match users (db w) with
     | None =>
         Response 500
           (jsonify [("status", JStr "error");
                     ("message", JStr "no such table: users")])
     | Some t =>
         Response 200
           (jsonify
              [("status",
                JStr (match
                        fetchone
                          (select_where
                             (fun u =>
                                String.eqb (Rows.username u)
                                  (credentials req).1
                                && String.eqb (Rows.password u)
                                     (credentials req).2) t)
                      with
                      | Some _ => "success"
                      | None => "fail"
                      end))])
     end, w).
Proof.
  unfold serve, login, try_except, with_get_db, bind.
  rewrite from_run. simpl tget.
  destruct (users (db w)) as [t|]; simpl; [reflexivity|].
  rewrite world_eta. reflexivity.
Qed.

Lemma fetchone_seeded_users (p : user -> bool) :
  fetchone (select_where p seeded_users)
  = if p (Rows.User "hidan" "killer")
    then Some (1, Rows.User "hidan" "killer") else None.
Proof.
  unfold select_where, scan, seeded_users. cbn [rows].
  rewrite map_to_list_singleton. cbn [List.filter snd].
  destruct (p _); reflexivity.
Qed.

(** X9. Only the seeded account logs in.  In every reachable world whose
    users table exists, a login is answered 200; its status is success
    when the two fields are "hidan" and "killer", and fail for every
    other pair. *)
Theorem login_seed_only req w t :
  reachable APP_DIR CWD secure_filename w ->
  users (db w) = Some t ->
  (credentials req = ("hidan", "killer") ->
   (serve (login req) w).1
   = Response 200 (jsonify [("status", JStr "success")]))
  /\ (credentials req <> ("hidan", "killer") ->
      (serve (login req) w).1
      = Response 200 (jsonify [("status", JStr "fail")])).
Proof.
  intros Hr Ht. destruct (reachable_accounts w Hr) as [[Hu|Hu] _];
    [congruence|].
  rewrite login_run, Hu, fetchone_seeded_users.
  destruct (credentials req) as [u p]. cbv beta.
  cbn [Rows.username Rows.password fst snd].
  destruct (String.eqb_spec "hidan" u) as [<-|Hu'],
    (String.eqb_spec "killer" p) as [<-|Hp']; cbn [andb].
  - split; [reflexivity|]. intros H. destruct H. reflexivity.
  - split; [|reflexivity]. intros [= E]. congruence.
  - split; [|reflexivity]. intros [= E]. congruence.
  - split; [|reflexivity]. intros [= E]. congruence.
Qed.

(** X10. Only the seeded key passes.  In every reachable world whose
    admin table exists, a key check whose body is an object with a string
    under "key" (or, the key being empty, no such entry, or a body that
    is missing or does not parse) is answered 200, with ok true for
    "ceo@2025" and ok false for every other key. *)
Theorem check_key_seed_only req key w t :
  reachable APP_DIR CWD secure_filename w ->
  admin (db w) = Some t ->
  (get_json_silent req = None /\ key = EmptyString
   \/ exists entries,
        get_json_silent req = Some (JObj entries)
        /\ match assoc "key" entries with
           | Some v => v = JStr key
           | None => key = EmptyString
           end) ->
  (key = "ceo@2025" ->
   serve (check_key req) w
   = (Response 200 (jsonify [("ok", JBool true)]), w))
  /\ (key <> "ceo@2025" ->
      serve (check_key req) w
      = (Response 200 (jsonify [("ok", JBool false)]), w)).
Proof.
  intros Hr Ht Hbody. destruct (reachable_accounts w Hr) as [_ [Ha|Ha]];
    [congruence|].
  destruct (check_key_string req key w seeded_admin Ha Hbody) as [Hyes Hno].
  assert (Hk : key_matches key seeded_admin <-> key = "ceo@2025").
  { unfold key_matches, seeded_admin. simpl. split.
    - intros (i & a & Hl & <-).
      apply lookup_singleton_Some in Hl as [_ <-]. reflexivity.
    - intros ->. exists 1, (Rows.AdminKey "ceo@2025").
      split; [apply lookup_singleton_eq|reflexivity]. }
  split; intros H; [apply Hyes, Hk, H|apply Hno]. rewrite Hk. exact H.
Qed.

(** ** Rows hold trimmed fields *)

Lemma rstrip_rstrip s : PyStr.rstrip (PyStr.rstrip s) = PyStr.rstrip s.
Proof.
  induction s as [|c s IH]; [reflexivity|].
  simpl. destruct (PyStr.rstrip s) as [|d r] eqn:E.
  - destruct (PyStr.isspace c) eqn:Ec; [reflexivity|].
    simpl. rewrite Ec. reflexivity.
  - change (PyStr.rstrip (String c (String d r)))
      with (match PyStr.rstrip (String d r) with
            | EmptyString =>
                if PyStr.isspace c then EmptyString
                else String c EmptyString
            | r' => String c r'
            end).
    rewrite IH. reflexivity.
Qed.

Lemma rstrip_head c s :
  PyStr.isspace c = false ->
  exists r, PyStr.rstrip (String c s) = String c r.
Proof.
  intros Hc. simpl. destruct (PyStr.rstrip s); [rewrite Hc|]; eauto.
Qed.

Lemma strip_strip s : PyStr.strip (PyStr.strip s) = PyStr.strip s.
Proof.
  unfold PyStr.strip.
  destruct (lstrip_head s) as [E|(c & r & E & Hc)]; rewrite E.
  - reflexivity.
  - destruct (rstrip_head c r Hc) as [r' Er]. rewrite Er.
    simpl PyStr.lstrip. rewrite Hc, <- Er. apply rstrip_rstrip.
Qed.

Lemma form_field_trimmed req k :
  is_missing (form req) k = false -> trimmed (form_field req k).
Proof.
  intros H. split.
  - intros E. pose proof (form_field_truthy req k) as Ht.
    rewrite E, H in Ht. discriminate.
  - unfold form_field. apply strip_strip.
Qed.

Lemma new_row_trimmed env req photo :
  missing_fields (form req) = [] -> row_trimmed (new_row env req photo).
Proof.
  unfold missing_fields, REQUIRED. simpl List.filter.
  destruct (is_missing (form req) "name") eqn:E1; [discriminate|].
  destruct (is_missing (form req) "email") eqn:E2; [discriminate|].
  destruct (is_missing (form req) "department") eqn:E3; [discriminate|].
  destruct (is_missing (form req) "role") eqn:E4; [discriminate|].
  destruct (is_missing (form req) "roll_number") eqn:E5; [discriminate|].
  intros _. unfold row_trimmed, new_row. simpl.
  repeat split; apply form_field_trimmed; assumption.
Qed.

(** A property of rows that every inserted row has holds of every row of
    every reachable world. *)
Lemma reachable_rows (P : employee -> Prop) :
  (forall env req photo,
     missing_fields (form req) = [] -> P (new_row env req photo)) ->
  forall w, reachable APP_DIR CWD secure_filename w ->
  forall t i e, employees (db w) = Some t -> rows t !! i = Some e -> P e.
Proof.
  intros Hnew w Hr. induction Hr as [f|ev w _ IH]; [discriminate|].
  intros t' i e'. destruct ev; simpl.
  - rewrite init_db_run. simpl. intros [= <-].
    destruct (employees (db w)) as [t|] eqn:E; simpl; [eapply IH; eauto|].
    rewrite lookup_empty. discriminate.
  - rewrite index_read_only. apply IH.
  - rewrite static_files_read_only. apply IH.
  - rewrite get_upload_read_only. apply IH.
  - rewrite login_read_only. apply IH.
  - rewrite check_key_read_only. apply IH.
  - destruct (create_employee_outcomes env req w)
      as [[-> _]|(t & photo & f & Ht & Hm & _ & ->)]; [apply IH|].
    simpl. intros [= <-]. simpl. rewrite lookup_insert.
    destruct (decide (next_rowid t = i)).
    + intros [= <-]. apply Hnew, Hm.
    + apply (IH t i e' Ht).
  - rewrite list_employees_read_only. apply IH.
  - rewrite get_employee_read_only. apply IH.
  - destruct (employees (db w)) as [t|] eqn:Ht.
    + destruct (int64 emp_id) eqn:Hi;
        [|rewrite (delete_employee_overflow env emp_id w t Ht Hi);
          cbn [snd]; rewrite Ht; apply IH].
      destruct (rows t !! emp_id) as [e|] eqn:He.
      * rewrite (delete_employee_present env emp_id w t e Ht Hi He). simpl.
        intros [= <-]. simpl. rewrite lookup_delete.
        destruct (decide (emp_id = i)); [discriminate|].
        apply (IH t i e' eq_refl).
      * rewrite (delete_employee_absent env emp_id w t Ht Hi He).
        cbn [snd]. rewrite Ht. apply IH.
    + rewrite (delete_employee_no_table env emp_id w Ht).
      cbn [snd]. rewrite Ht. discriminate.
Qed.

(** X11. In every reachable world every employee row has a name, an
    email, a department, a role and a roll number that are not empty and
    have no white space at either end: rows come from the create handler
    alone, which trims the five fields and refuses the empty ones. *)
Theorem reachable_rows_trimmed w t i e :
  reachable APP_DIR CWD secure_filename w ->
  employees (db w) = Some t ->
  rows t !! i = Some e ->
  row_trimmed e.
Proof.
  intros Hr. apply (reachable_rows row_trimmed); [|exact Hr].
  intros env req photo. apply new_row_trimmed.
Qed.

(** ** Failures of the create handler *)

Lemma take_prefix n s : String.prefix (PyStr.take n s) s = true.
Proof.
  revert s. induction n as [|n IH]; intros [|a s]; simpl; try reflexivity.
  destruct (ascii_dec a a); [apply IH|congruence].
Qed.

(** X12. When saving the photo fails, the request gets a 500 with the
    message of the failure and no row is inserted: the database is left
    as it was.  When the destination could not be opened, the files are
    left as they were too; when the copy broke off, the destination is
    left with the bytes written so far, a beginning of the upload, and
    no other file is touched. *)
Theorem create_employee_save_fails env req ph fail w :
  missing_fields (form req) = [] ->
  attached req ph ->
  allowed_file (filename ph) = true ->
  save_error env = Some fail ->
  let path := photo_save_path APP_DIR secure_filename env req ph in
  serve (create env req) w
  = (failed 500 (save_message fail),
     match fail with
     | OpenFails _ => w
     | WriteFails _ written =>
         World (db w)
           (<[Path.realpath CWD path := PyStr.take written (content ph)]>
              (fs w))
     end)
  /\ forall msg written,
       fail = WriteFails msg written ->
       String.prefix (PyStr.take written (content ph)) (content ph) = true.
Proof.
  intros Hm [Ea Hn] Ha Hs path. split; [|intros; apply take_prefix].
  subst path. unfold photo_save_path, photo_name, photo_extension.
  destruct (PyStr.rsplit1 "." (filename ph) !! 1%nat) as [e|] eqn:He.
  2:{ unfold allowed_file in Ha. rewrite He, andb_false_r in Ha.
      discriminate. }
  open_create_keep req. rewrite Hm, Ea.
  destruct (filename ph) as [|c fname] eqn:Ef; [congruence|].
  simpl PyStr.truthy. cbv iota. rewrite Ha. simpl negb. cbv iota.
  rewrite He. unfold serve, try_except, bind, ret, save. rewrite Hs.
  destruct fail; reflexivity.
Qed.


(** ** The extension test *)

Lemma after_last_app c stem ext :
  PyStr.has_char c ext = false ->
  PyStr.after_last c (stem +:+ String c ext) = Some ext.
Proof.
  intros He.
  assert (Hnone : PyStr.after_last c ext = None).
  { induction ext as [|a ext IH]; [reflexivity|]. simpl in *.
    apply orb_false_iff in He as [Ha He]. rewrite (IH He), Ha.
    reflexivity. }
  induction stem as [|a stem IH].
  - change (EmptyString +:+ String c ext) with (String c ext). simpl.
    rewrite Hnone, Ascii.eqb_refl. reflexivity.
  - rewrite append_cons. simpl. rewrite IH. reflexivity.
Qed.

Lemma before_last_app c stem ext :
  PyStr.has_char c ext = false ->
  PyStr.before_last c (stem +:+ String c ext) = Some stem.
Proof.
  intros He.
  assert (Hnone : PyStr.before_last c ext = None).
  { induction ext as [|a ext IH]; [reflexivity|]. simpl in *.
    apply orb_false_iff in He as [Ha He]. rewrite (IH He), Ha.
    reflexivity. }
  induction stem as [|a stem IH].
  - change (EmptyString +:+ String c ext) with (String c ext). simpl.
    rewrite Hnone, Ascii.eqb_refl. reflexivity.
  - rewrite append_cons. simpl. rewrite IH. reflexivity.
Qed.

Lemma has_char_app c stem ext :
  PyStr.has_char c (stem +:+ String c ext) = true.
Proof.
  induction stem as [|a stem IH].
  - change (EmptyString +:+ String c ext) with (String c ext). simpl.
    rewrite Ascii.eqb_refl. reflexivity.
  - rewrite append_cons. simpl. rewrite IH. apply orb_true_r.
Qed.

(** X14. Only the text after the last dot of a file name counts, and its
    case does not: a name with no dot is refused; a name that ends in a
    dot and a dot-free text is allowed exactly when that text, in lower
    case, is png, jpg, jpeg, webp or gif, whatever comes before the
    dot. *)
Theorem allowed_file_last_dot stem ext :
  PyStr.has_char "."%char ext = false ->
  allowed_file ext = false
  /\ (allowed_file (stem +:+ "." +:+ ext) = true
      <-> PyStr.lower ext ∈ ALLOWED_EXTENSIONS).
Proof.
  intros He. split.
  - unfold allowed_file. rewrite He. reflexivity.
  - change (stem +:+ "." +:+ ext) with (stem +:+ String "." ext).
    unfold allowed_file, PyStr.rsplit1.
    rewrite has_char_app, (before_last_app _ stem ext He),
      (after_last_app _ stem ext He), andb_true_l.
    change ([stem; ext] !! 1%nat) with (Some ext).
    rewrite existsb_exists. split.
    + intros (x & Hin & Heq). apply String.eqb_eq in Heq. subst x.
      apply list_elem_of_In. exact Hin.
    + intros H. exists (PyStr.lower ext).
      split; [apply list_elem_of_In; exact H|apply String.eqb_refl].
Qed.

(** ** Paths *)

Lemma parts_all_kept x : Forall kept (Path.parts x).
Proof.
  unfold Path.parts. apply Forall_forall. intros p Hp.
  apply list_elem_of_In in Hp.
  apply (proj1 (filter_In _ _ _)) in Hp. destruct Hp as [Hin Hf].
  apply negb_true_iff, orb_false_iff in Hf as [H1 H2].
  apply String.eqb_neq in H1, H2. repeat split; auto.
  pose proof (split_no_sep "/"%char x) as Hs.
  rewrite Forall_forall in Hs. apply Hs, list_elem_of_In, Hin.
Qed.

Lemma parts_slash s : Path.parts ("/" +:+ s) = Path.parts s.
Proof.
  unfold Path.parts.
  change ("/" +:+ s) with (EmptyString +:+ String "/" s).
  rewrite split_app. reflexivity.
Qed.

Lemma parts_join_parts x :
  Path.parts (PyStr.join "/" (Path.parts x)) = Path.parts x.
Proof.
  destruct (Path.parts x) as [|p ps] eqn:E; [reflexivity|].
  rewrite <- E. apply parts_kept; [congruence|apply parts_all_kept].
Qed.

Lemma parts_pure x : Path.parts (Path.pure x) = Path.parts x.
Proof.
  unfold Path.pure. destruct (Path.is_abs x).
  - rewrite parts_slash. apply parts_join_parts.
  - destruct (Path.parts x) as [|p ps] eqn:E; [reflexivity|].
    rewrite <- E. apply parts_join_parts.
Qed.

Lemma kept_not_abs p : kept p -> Path.is_abs p = false.
Proof.
  intros (Hne & _ & Hs). destruct p as [|c p]; [reflexivity|].
  simpl in *. apply orb_false_iff in Hs as [Hc _]. exact Hc.
Qed.

Lemma is_abs_join_kept p ps :
  kept p -> Path.is_abs (PyStr.join "/" (p :: ps)) = false.
Proof.
  intros Hk. pose proof (kept_not_abs p Hk) as Ha.
  destruct Hk as (Hne & _). unfold PyStr.join. simpl.
  destruct ps; [exact Ha|]. destruct p; [congruence|exact Ha].
Qed.

Lemma is_abs_pure x : Path.is_abs (Path.pure x) = Path.is_abs x.
Proof.
  unfold Path.pure. destruct (Path.is_abs x) eqn:E; [reflexivity|].
  pose proof (parts_all_kept x) as Hk.
  destruct (Path.parts x) as [|p ps]; [reflexivity|].
  apply is_abs_join_kept. inversion Hk; assumption.
Qed.

Lemma resolve_pure cwd x : Path.resolve cwd (Path.pure x) = Path.resolve cwd x.
Proof. unfold Path.resolve. rewrite is_abs_pure, parts_pure. reflexivity. Qed.


Lemma parts_plain fname : plain_name fname -> Path.parts fname = [fname].
Proof.
  intros [(Hne & Hdot & Hs) _]. unfold Path.parts.
  rewrite (split_single _ _ Hs). simpl.
  apply String.eqb_neq in Hne, Hdot. rewrite Hne, Hdot. reflexivity.
Qed.

(** The file a name joined to a directory names, for a plain name: the
    directory's parts, then the name. *)
Lemma resolve_child cwd dir fname :
  dir <> EmptyString -> plain_name fname ->
  Path.resolve cwd (dir +:+ "/" +:+ fname)
  = Path.resolve cwd dir ++ [fname].
Proof.
  intros Hd Hp. unfold Path.resolve.
  rewrite (is_abs_app dir _ Hd), parts_app, (parts_plain fname Hp).
  destruct Hp as [_ Hdd]. apply String.eqb_neq in Hdd.
  destruct (Path.is_abs dir); rewrite walk_app; simpl; rewrite Hdd;
    reflexivity.
Qed.

Lemma join_plain dir fname :
  plain_name fname -> Path.join dir fname = Path.pure (dir +:+ "/" +:+ fname).
Proof.
  intros [Hk _]. unfold Path.join. rewrite (kept_not_abs fname Hk).
  reflexivity.
Qed.

(** Joining a plain name to a directory stays in the directory. *)
Lemma within_join cwd dir fname :
  dir <> EmptyString -> plain_name fname ->
  Path.within cwd dir (Path.join dir fname) = true.
Proof.
  intros Hd Hp. unfold Path.within.
  rewrite (join_plain dir fname Hp), resolve_pure,
    (resolve_child cwd dir fname Hd Hp).
  apply is_prefix_app.
Qed.


Lemma upload_dir_nonempty : UPLOAD_DIR APP_DIR <> EmptyString.
Proof. apply join_nonempty. Qed.

(** X15. The index route always answers 200 and changes nothing: it
    sends [index.html] of the application directory when that file is
    there, and the fixed text when it is not. *)
Theorem index_behaviour w :
  (serve (index APP_DIR CWD) w).2 = w
  /\ status (serve (index APP_DIR CWD) w).1 = 200
  /\ (forall data,
        lookup_file CWD (fs w) (Path.join APP_DIR "index.html") = Some data ->
        exists path, body (serve (index APP_DIR CWD) w).1 = FileOf path data)
  /\ (lookup_file CWD (fs w) (Path.join APP_DIR "index.html") = None ->
      exists text, body (serve (index APP_DIR CWD) w).1 = Text text).
Proof.
  split; [apply index_read_only|].
  unfold serve, index, path_exists, send_file.
  unfold bind, get_world, ret. cbv beta iota zeta.
  destruct (lookup_file CWD (fs w) (Path.join APP_DIR "index.html"))
    as [d|] eqn:E; cbv beta iota; rewrite ?E; simpl.
  - split; [reflexivity|]. split; [|discriminate].
    intros data [= <-]. eauto.
  - split; [reflexivity|]. split; [discriminate|]. eauto.
Qed.

(** ** Uploaded photos *)








Lemma insertion_outcome_fs env req photo w :
  fs (insertion_outcome env req photo w).2 = fs w.
Proof.
  unfold insertion_outcome. destruct (employees (db w)) as [t|];
    [|reflexivity].
  destruct (roll_taken _ t); reflexivity.
Qed.

(** The files after a create request: as before, or with the attached
    photo written, whole or in part. *)
Lemma create_employee_fs env req w :
  fs (serve (create env req) w).2 = fs w
  \/ exists ph data,
       attached req ph
       /\ fs (serve (create env req) w).2
          = <[Path.realpath CWD
                (photo_save_path APP_DIR secure_filename env req ph)
              := data]> (fs w).
Proof.
  destruct (missing_fields (form req)) as [|k ks] eqn:Hm.
  2:{ left. open_create_keep req. rewrite Hm. reflexivity. }
  destruct (assoc "photo" (files req)) as [ph|] eqn:Ea.
  2:{ left. rewrite (create_employee_no_photo env req w Hm) by auto.
      apply insertion_outcome_fs. }
  destruct (filename ph) as [|c fname] eqn:Ef.
  { left. rewrite (create_employee_no_photo env req w Hm) by eauto.
    apply insertion_outcome_fs. }
  destruct (allowed_file (String c fname)) eqn:Ha.
  2:{ left. open_create_keep req. rewrite Hm, Ea, Ef.
      simpl PyStr.truthy. cbv iota. rewrite Ha. reflexivity. }
  destruct (save_error env) as [[msg|msg n]|] eqn:Hs.
  - left. open_create_keep req. rewrite Hm, Ea, Ef.
    simpl PyStr.truthy. cbv iota. rewrite Ha. simpl negb. cbv iota.
    destruct (PyStr.rsplit1 "." (String c fname) !! 1%nat) as [e|];
      [|reflexivity].
    unfold serve, try_except, bind, ret, save. rewrite Hs. reflexivity.
  - destruct (PyStr.rsplit1 "." (String c fname) !! 1%nat) as [e|] eqn:He.
    2:{ left. open_create_keep req. rewrite Hm, Ea, Ef.
        simpl PyStr.truthy. cbv iota. rewrite Ha. simpl negb. cbv iota.
        rewrite He. reflexivity. }
    right. exists ph, (PyStr.take n (content ph)).
    split; [split; [exact Ea|congruence]|].
    unfold photo_save_path, photo_name, photo_extension. rewrite Ef, He.
    open_create_keep req. rewrite Hm, Ea, Ef.
    simpl PyStr.truthy. cbv iota. rewrite Ha. simpl negb. cbv iota.
    rewrite He. unfold serve, try_except, bind, ret, save. rewrite Hs.
    reflexivity.
  - right. exists ph, (content ph). split; [split; [exact Ea|congruence]|].
    rewrite (create_employee_accepted env req w Hm).
    2:{ unfold photo_accepted. rewrite Ea, Ef. right. auto. }
    rewrite insertion_outcome_fs. unfold saved_files. rewrite Ea, Ef.
    reflexivity.
Qed.

(** X18. What a create request does to the files: it removes none; the
    only path whose content it can change is the one the attached photo
    is saved under; and when the name of the saved file is plain, that
    path is in the upload directory. *)
Theorem create_employee_writes_in_uploads env req w :
  (forall p d, fs w !! p = Some d ->
               is_Some (fs (serve (create env req) w).2 !! p))
  /\ (forall p, fs (serve (create env req) w).2 !! p <> fs w !! p ->
        exists ph,
          attached req ph
          /\ p = Path.realpath CWD
                   (photo_save_path APP_DIR secure_filename env req ph))
  /\ (forall ph, plain_name (photo_name secure_filename env req ph) ->
        Path.within CWD (UPLOAD_DIR APP_DIR)
          (photo_save_path APP_DIR secure_filename env req ph) = true).
Proof.
  split; [|split].
  - intros p d Hp.
    destruct (create_employee_fs env req w) as [->|(ph & data & _ & ->)];
      [eauto|].
    rewrite lookup_insert. destruct (decide (_ = p)); eauto.
  - intros p Hp.
    destruct (create_employee_fs env req w) as [E|(ph & data & Hat & E)];
      rewrite E in Hp; [congruence|].
    exists ph. split; [exact Hat|].
    rewrite lookup_insert in Hp. destruct (decide (_ = p)); congruence.
  - intros ph Hp. apply within_join; [apply upload_dir_nonempty|exact Hp].
Qed.

(** X19. The upload route has two answers and changes nothing: either
    the 404 page of the framework, or, with status 200, the content of
    a file that the file system holds in the upload directory or below
    it, as the kernel resolves its path (the directories on the way are
    taken not to be links).  No name, whatever dots and slashes it
    carries, makes the route send a file from elsewhere. *)
Theorem get_upload_behaviour fname w :
  (exists p data,
     Path.within CWD (UPLOAD_DIR APP_DIR) p = true
     /\ lookup_file CWD (fs w) p = Some data
     /\ serve (get_upload APP_DIR CWD fname) w
        = (Response 200 (FileOf (Path.realpath CWD p) data), w))
  \/ serve (get_upload APP_DIR CWD fname) w = (not_found, w).
Proof.
  unfold get_upload.
  destruct (safe_join (UPLOAD_DIR APP_DIR) fname) as [p|] eqn:E;
    [|right; reflexivity].
  apply (safe_join_within CWD) in E; [|apply join_nonempty].
  unfold serve, path_exists, send_file, bind, get_world, ret.
  cbv beta iota zeta.
  destruct (lookup_file CWD (fs w) p) as [d|] eqn:El.
  - left. exists p, d. cbv beta iota. rewrite El. auto.
  - right. reflexivity.
Qed.

(** X20. Before [init_db] has run (it runs only when the file is the
    main script) no table exists, and the routes on the tables fail
    without changing anything: the listing, the single read, the
    deletion and the key check, whatever the request, get the
    framework's 500 page; a create request that passes validation and
    whose photo, if any, is saved gets a 500 whose message is "no such
    table: employees", and the database stays without tables. *)
Theorem routes_before_init_db env req emp_id w :
  db w = empty_database ->
  serve list_employees w = (internal_server_error, w)
  /\ serve (get_employee emp_id) w = (internal_server_error, w)
  /\ serve (delete_emp env emp_id) w = (internal_server_error, w)
  /\ serve (check_key req) w = (internal_server_error, w)
  /\ (missing_fields (form req) = [] -> photo_accepted env req ->
      (serve (create env req) w).1 = failed 500 "no such table: employees"
      /\ db (serve (create env req) w).2 = empty_database).
Proof.
  intros Hdb.
  assert (Ht : employees (db w) = None) by (rewrite Hdb; reflexivity).
  assert (Ha : admin (db w) = None) by (rewrite Hdb; reflexivity).
  split; [|split; [|split; [|split]]].
  - unfold serve, list_employees, with_get_db, bind.
    rewrite from_run. simpl tget. rewrite Ht. simpl. rewrite world_eta.
    reflexivity.
  - rewrite get_employee_run, Ht. reflexivity.
  - exact (delete_employee_no_table env emp_id w Ht).
  - unfold serve, check_key. cbv zeta.
    generalize (match get_json_silent req with
                | Some j => if json_truthy j then j else JObj []
                | None => JObj []
                end).
    intros data.
    destruct data; unfold bind at 1; try reflexivity.
    unfold ret at 1. cbv iota. unfold with_get_db, bind.
    rewrite from_run. simpl tget. rewrite Ha. simpl. rewrite world_eta.
    reflexivity.
  - intros Hm Hp. unfold photo_accepted in Hp.
    destruct (assoc "photo" (files req)) as [ph|] eqn:Ea.
    + destruct Hp as [Hn|[Hal Hs]].
      * rewrite (create_employee_no_photo env req w Hm) by eauto.
        unfold insertion_outcome. rewrite Ht. split; [reflexivity|exact Hdb].
      * destruct (filename ph) as [|c fname] eqn:Ef.
        -- rewrite (create_employee_no_photo env req w Hm) by eauto.
           unfold insertion_outcome. rewrite Ht.
           split; [reflexivity|exact Hdb].
        -- destruct (create_employee_photo env req ph w Hm) as [path Hrun];
             [split; [exact Ea|congruence]|congruence|exact Hs|].
           rewrite Hrun. unfold insertion_outcome. simpl db. rewrite Ht.
           split; [reflexivity|exact Hdb].
    + rewrite (create_employee_no_photo env req w Hm) by auto.
      unfold insertion_outcome. rewrite Ht. split; [reflexivity|exact Hdb].
Qed.

End Properties.
(** ** The run of [Demo] *)

(** C2. The static route serves a file that is not in the application
    directory: for the path "../secret.txt" the handler joins it to
    [/srv/app], finds that the file exists and sends it, status 200; the
    file sent, [/srv/secret.txt], is not within [/srv/app].  The upload
    route answers 404 for the same climb. *)
Theorem static_files_leaves_app_dir :
  serve (static_files Demo.app_dir Demo.cwd "../secret.txt")
    Demo.with_ann
  = (Response 200 (FileOf "/srv/secret.txt" "top secret"), Demo.with_ann)
  /\ Path.within Demo.cwd Demo.app_dir
       (Path.join Demo.app_dir "../secret.txt") = false
  /\ Path.within Demo.cwd Demo.app_dir "/srv/secret.txt" = false
  /\ status (serve (get_upload Demo.app_dir Demo.cwd
                      "../../secret.txt") Demo.with_ann).1 = 404.
Proof. vm_compute. repeat split; reflexivity. Qed.

(** C5. The deletion of an id that does not fit 64 bits.  The id 2^63
    is in no table, and for an id that is in no table the handler
    means to answer 404 and does so up to 2^63 - 1.  Binding 2^63 to
    the SELECT raises [OverflowError], which nothing catches: the
    answer is the framework's 500. *)
Theorem delete_employee_huge_id_500 :
  rows (Demo.employees_of Demo.with_ann) !! (2 ^ 63) = None
  /\ serve (delete_employee Demo.cwd Demo.env (2 ^ 63)) Demo.with_ann
     = (internal_server_error, Demo.with_ann)
  /\ status internal_server_error = 500
  /\ serve (delete_employee Demo.cwd Demo.env (2 ^ 63 - 1)) Demo.with_ann
     = (failed 404 "Employee not found", Demo.with_ann).
Proof. vm_compute. repeat split; reflexivity. Qed.

(** The listing of C6 can carry a whole photo path.  With [server.py]
    in the root directory the upload directory is [/uploads]: the path
    Ann's photo is saved under and recorded with is then the very
    address the listing gives as photo_url. *)
Lemma list_employees_raw_path_appears :
  rows (Demo.employees_of Scenes.root_with_ann) !! 1
  = Some Scenes.root_ann_row
  /\ Rows.photo_path Scenes.root_ann_row
     = Some "/uploads/R1_1700000000.png"
  /\ appears "/uploads/R1_1700000000.png"
       (serve list_employees Scenes.root_with_ann).1 = true.
Proof. vm_compute. repeat split; reflexivity. Qed.

(** The listing after Ann and Bob: Bob, id 2, comes first. *)
Example list_employees_ann_bob :
  exists a b,
    (serve list_employees Demo.with_ann_bob).1
    = Response 200
        (jsonify [("ok", JBool true); ("employees", JArr [JObj b; JObj a])])
    /\ assoc "id" a = Some (JInt 1) /\ assoc "id" b = Some (JInt 2)
    /\ assoc "photo_url" a = Some (JStr "/uploads/R1_1700000000.png")
    /\ assoc "photo_url" b = Some JNull.
Proof. vm_compute. do 2 eexists. repeat split; reflexivity. Qed.

(** After three insertions the listing has the ids 3, 2, 1 in this
    order. *)
Example list_employees_three :
  exists rs,
    (serve list_employees Demo.with_three).1
    = Response 200 (jsonify [("ok", JBool true); ("employees", JArr rs)])
    /\ map (fun j => assoc "id" (json_entries j)) rs
       = [Some (JInt 3); Some (JInt 2); Some (JInt 1)].
Proof. vm_compute. eexists. split; reflexivity. Qed.

(** The seeded key passes the check, another key does not. *)
Example check_key_seeded :
  (serve (check_key
            (Request [] [] (Some (JObj [("key", JStr "ceo@2025")]))))
     Demo.booted).1
  = Response 200 (jsonify [("ok", JBool true)])
  /\ (serve (check_key
               (Request [] [] (Some (JObj [("key", JStr "ceo@2024")]))))
        Demo.booted).1
     = Response 200 (jsonify [("ok", JBool false)])
  /\ (serve (check_key (Request [] [] None)) Demo.booted).1
     = Response 200 (jsonify [("ok", JBool false)]).
Proof. vm_compute. repeat split; reflexivity. Qed.

(** ** The theorems at work on the run *)


Lemma create_employee_missing_fields_witness :
  (exists k, k ∈ REQUIRED /\ is_missing (form Demo.nameless) k = true)
  /\ serve (create_employee Demo.app_dir Demo.cwd Demo.secure_filename
              Demo.env Demo.nameless) Demo.with_ann
     = (failed 400 "Missing fields: name, department", Demo.with_ann).
Proof.
  assert (H : exists k, k ∈ REQUIRED
                        /\ is_missing (form Demo.nameless) k = true).
  { exists "name". split; [|reflexivity].
    apply list_elem_of_In. simpl. auto. }
  split; [exact H|].
  exact (proj1 (create_employee_missing_fields Demo.app_dir Demo.cwd
                  Demo.secure_filename Demo.env Demo.nameless
                  Demo.with_ann H)).
Defined.

Lemma create_employee_unsupported_photo_witness :
  missing_fields (form Demo.carol) = []
  /\ attached Demo.carol (FileStorage "setup.exe" "MZ")
  /\ (forall ext, extension "setup.exe" = Some ext ->
                  PyStr.lower ext ∉ ALLOWED_EXTENSIONS)
  /\ serve (create_employee Demo.app_dir Demo.cwd Demo.secure_filename
              Demo.env Demo.carol) Demo.with_ann
     = (failed 415 "Unsupported image type", Demo.with_ann).
Proof.
  assert (H1 : missing_fields (form Demo.carol) = []) by reflexivity.
  assert (H2 : attached Demo.carol (FileStorage "setup.exe" "MZ"))
    by (split; [reflexivity|discriminate]).
  assert (H3 : forall ext, extension "setup.exe" = Some ext ->
                           PyStr.lower ext ∉ ALLOWED_EXTENSIONS).
  { intros ext H. vm_compute in H. injection H as <-. intros Hin.
    apply list_elem_of_In in Hin. vm_compute in Hin.
    intuition discriminate. }
  split; [exact H1|]. split; [exact H2|]. split; [exact H3|].
  exact (create_employee_unsupported_photo Demo.app_dir Demo.cwd
           Demo.secure_filename Demo.env Demo.carol
           (FileStorage "setup.exe" "MZ") Demo.with_ann H1 H2 H3).
Defined.


Lemma delete_employee_behaviour_witness :
  employees (db Demo.with_ann) = Some (Demo.employees_of Demo.with_ann)
  /\ int64 1 = true
  /\ let r := (serve (delete_employee Demo.cwd Demo.env_no_remove 1)
                 Demo.with_ann).1 in
     let w' := (serve (delete_employee Demo.cwd Demo.env_no_remove 1)
                  Demo.with_ann).2 in
     match rows (Demo.employees_of Demo.with_ann) !! 1 with
     | None => r = failed 404 "Employee not found" /\ w' = Demo.with_ann
     | Some e =>
         r = Response 200
               (jsonify [("ok", JBool true);
                         ("message", JStr "Employee deleted")])
         /\ db w' = with_employees
                      (Table (delete 1 (rows (Demo.employees_of
                                                Demo.with_ann)))
                         (seq (Demo.employees_of Demo.with_ann)))
                      (db Demo.with_ann)
         /\ fs w' = after_remove Demo.cwd Demo.env_no_remove
                      (Rows.photo_path e) (fs Demo.with_ann)
         /\ (forall env',
               (serve (delete_employee Demo.cwd env' 1) Demo.with_ann).1
               = r)
         /\ (forall env',
               serve (delete_employee Demo.cwd env' 1) w'
               = (failed 404 "Employee not found", w'))
     end.
Proof.
  assert (H : employees (db Demo.with_ann)
              = Some (Demo.employees_of Demo.with_ann))
    by (vm_compute; reflexivity).
  split; [exact H|]. split; [reflexivity|].
  exact (delete_employee_behaviour Demo.cwd Demo.env_no_remove 1
           Demo.with_ann (Demo.employees_of Demo.with_ann) H eq_refl).
Defined.

Lemma list_employees_all_by_id_desc_witness :
  employees (db Demo.with_ann_bob)
  = Some (Demo.employees_of Demo.with_ann_bob)
  /\ exists rs,
       serve list_employees Demo.with_ann_bob
       = (Response 200
            (jsonify [("ok", JBool true);
                      ("employees", JArr (map employee_view rs))]),
          Demo.with_ann_bob)
       /\ StronglySorted id_above rs
       /\ List.length rs = 2%nat.
Proof.
  assert (H : employees (db Demo.with_ann_bob)
              = Some (Demo.employees_of Demo.with_ann_bob))
    by (vm_compute; reflexivity).
  split; [exact H|].
  destruct (list_employees_all_by_id_desc Demo.with_ann_bob
              (Demo.employees_of Demo.with_ann_bob) H)
    as (rs & H1 & _ & H3 & H4 & _).
  exists rs. split; [exact H1|]. split; [exact H3|].
  rewrite H4. vm_compute. reflexivity.
Defined.

Lemma login_behaviour_witness :
  user_matches (credentials Demo.hidan) (Demo.users_of Demo.booted)
  /\ (serve (login Demo.hidan) Demo.booted).1
     = Response 200 (jsonify [("status", JStr "success")]).
Proof.
  assert (Hu : users (db Demo.booted) = Some (Demo.users_of Demo.booted))
    by (vm_compute; reflexivity).
  assert (Hm : user_matches (credentials Demo.hidan)
                 (Demo.users_of Demo.booted)).
  { exists 1, (Rows.User "hidan" "killer").
    split; [vm_compute; reflexivity|]. split; reflexivity. }
  pose proof (login_behaviour Demo.hidan Demo.booted) as (_ & T & _).
  rewrite Hu in T. destruct T as [T _].
  split; [exact Hm|exact (T Hm)].
Defined.

(** ** The further theorems at work on the run *)

Lemma demo_with_ann_reachable :
  reachable Demo.app_dir Demo.cwd Demo.secure_filename Demo.with_ann.
Proof.
  unfold Demo.with_ann, Demo.booted, Demo.step, Demo.start.
  apply reachable_run, reachable_run, reachable_start.
Defined.

Lemma get_employee_behaviour_witness :
  employees (db Demo.with_ann) = Some (Demo.employees_of Demo.with_ann)
  /\ int64 7 = true
  /\ rows (Demo.employees_of Demo.with_ann) !! 7 = None
  /\ (serve (get_employee 7) Demo.with_ann).1 = failed 404 "Not found"
  /\ int64 (2 ^ 63) = false
  /\ (serve (get_employee (2 ^ 63)) Demo.with_ann).1
     = internal_server_error.
Proof.
  assert (H : employees (db Demo.with_ann)
              = Some (Demo.employees_of Demo.with_ann))
    by (vm_compute; reflexivity).
  assert (Hn : rows (Demo.employees_of Demo.with_ann) !! 7 = None)
    by (vm_compute; reflexivity).
  destruct (get_employee_behaviour 7 Demo.with_ann _ H) as (_ & H404 & _).
  destruct (get_employee_behaviour (2 ^ 63) Demo.with_ann _ H)
    as (_ & _ & _ & H500).
  split; [exact H|]. split; [reflexivity|]. split; [exact Hn|].
  split; [exact (H404 eq_refl Hn)|]. split; [reflexivity|].
  exact (H500 eq_refl).
Defined.

Lemma list_get_agree_witness :
  employees (db Demo.with_ann) = Some (Demo.employees_of Demo.with_ann)
  /\ forall v,
       (v ∈ listed Demo.with_ann
        /\ assoc "id" (json_entries v) = Some (JInt 1)
        /\ int64 1 = true)
       <-> (serve (get_employee 1) Demo.with_ann).1
           = Response 200 (jsonify [("ok", JBool true); ("employee", v)]).
Proof.
  assert (H : employees (db Demo.with_ann)
              = Some (Demo.employees_of Demo.with_ann))
    by (vm_compute; reflexivity).
  split; [exact H|].
  exact (fun v => list_get_agree Demo.with_ann _ 1 v H).
Defined.



Lemma delete_then_read_witness :
  employees (db Demo.with_ann) = Some (Demo.employees_of Demo.with_ann)
  /\ rows (Demo.employees_of Demo.with_ann) !! 1 = Some Scenes.ann_row
  /\ int64 1 = true
  /\ (serve (get_employee 1)
        (serve (delete_employee Demo.cwd Demo.env 1) Demo.with_ann).2).1
     = failed 404 "Not found".
Proof.
  assert (H : employees (db Demo.with_ann)
              = Some (Demo.employees_of Demo.with_ann))
    by (vm_compute; reflexivity).
  assert (He : rows (Demo.employees_of Demo.with_ann) !! 1
               = Some Scenes.ann_row) by (vm_compute; reflexivity).
  destruct (delete_then_read Demo.cwd Demo.env 1 Demo.with_ann _ _
              H He eq_refl)
    as (H404 & _).
  split; [exact H|]. split; [exact He|]. split; [reflexivity|exact H404].
Defined.

Lemma employee_ids_increase_witness :
  (serve (create_employee Demo.app_dir Demo.cwd Demo.secure_filename
            Demo.env Demo.bob) Demo.with_ann).1 = created 2 JNull
  /\ (serve (create_employee Demo.app_dir Demo.cwd Demo.secure_filename
               Demo.env Demo.dan)
        (run_all Demo.app_dir Demo.cwd Demo.secure_filename Scenes.bob_gone
           (serve (create_employee Demo.app_dir Demo.cwd
                     Demo.secure_filename Demo.env Demo.bob)
              Demo.with_ann).2)).1 = created 3 JNull
  /\ 2 < 3.
Proof.
  assert (H1 : (serve (create_employee Demo.app_dir Demo.cwd
                         Demo.secure_filename Demo.env Demo.bob)
                  Demo.with_ann).1 = created 2 JNull)
    by (vm_compute; reflexivity).
  assert (H2 : (serve (create_employee Demo.app_dir Demo.cwd
                         Demo.secure_filename Demo.env Demo.dan)
                  (run_all Demo.app_dir Demo.cwd Demo.secure_filename
                     Scenes.bob_gone
                     (serve (create_employee Demo.app_dir Demo.cwd
                               Demo.secure_filename Demo.env Demo.bob)
                        Demo.with_ann).2)).1 = created 3 JNull)
    by (vm_compute; reflexivity).
  split; [exact H1|]. split; [exact H2|].
  exact (employee_ids_increase Demo.app_dir Demo.cwd Demo.secure_filename
           Demo.env Demo.bob Demo.env Demo.dan Scenes.bob_gone
           Demo.with_ann 2 3 JNull JNull H1 H2).
Defined.

Lemma reading_leaves_world_witness :
  mutating (GetStatic "../secret.txt") = false
  /\ run Demo.app_dir Demo.cwd Demo.secure_filename
       (GetStatic "../secret.txt") Demo.with_ann = Demo.with_ann.
Proof.
  split; [reflexivity|].
  exact (reading_leaves_world Demo.app_dir Demo.cwd Demo.secure_filename
           (GetStatic "../secret.txt") Demo.with_ann eq_refl).
Defined.

Lemma requests_keep_accounts_witness :
  Forall is_request
    [PostEmployees Demo.env Demo.bob; DeleteEmployee Demo.env 1]
  /\ users (db (run_all Demo.app_dir Demo.cwd Demo.secure_filename
                  [PostEmployees Demo.env Demo.bob;
                   DeleteEmployee Demo.env 1] Demo.with_ann))
     = users (db Demo.with_ann).
Proof.
  assert (H : Forall is_request
                [PostEmployees Demo.env Demo.bob;
                 DeleteEmployee Demo.env 1]).
  { repeat constructor; intros E; discriminate E. }
  split; [exact H|].
  exact (proj1 (requests_keep_accounts Demo.app_dir Demo.cwd
                  Demo.secure_filename _ Demo.with_ann H)).
Defined.

Lemma login_seed_only_witness :
  reachable Demo.app_dir Demo.cwd Demo.secure_filename Demo.with_ann
  /\ users (db Demo.with_ann) = Some (Demo.users_of Demo.with_ann)
  /\ credentials Demo.hidan = ("hidan", "killer")
  /\ (serve (login Demo.hidan) Demo.with_ann).1
     = Response 200 (jsonify [("status", JStr "success")]).
Proof.
  assert (H : users (db Demo.with_ann) = Some (Demo.users_of Demo.with_ann))
    by (vm_compute; reflexivity).
  destruct (login_seed_only Demo.app_dir Demo.cwd Demo.secure_filename
              Demo.hidan Demo.with_ann _ demo_with_ann_reachable H)
    as [Hyes _].
  split; [exact demo_with_ann_reachable|]. split; [exact H|].
  split; [reflexivity|exact (Hyes eq_refl)].
Defined.

Lemma check_key_seed_only_witness :
  reachable Demo.app_dir Demo.cwd Demo.secure_filename Demo.with_ann
  /\ admin (db Demo.with_ann) = Some (Scenes.admin_of Demo.with_ann)
  /\ serve (check_key Scenes.right_key) Demo.with_ann
     = (Response 200 (jsonify [("ok", JBool true)]), Demo.with_ann).
Proof.
  assert (H : admin (db Demo.with_ann) = Some (Scenes.admin_of Demo.with_ann))
    by (vm_compute; reflexivity).
  assert (Hb : get_json_silent Scenes.right_key = None
               /\ "ceo@2025" = EmptyString
               \/ exists entries,
                    get_json_silent Scenes.right_key = Some (JObj entries)
                    /\ match assoc "key" entries with
                       | Some v => v = JStr "ceo@2025"
                       | None => "ceo@2025" = EmptyString
                       end).
  { right. exists [("key", JStr "ceo@2025")]. split; reflexivity. }
  destruct (check_key_seed_only Demo.app_dir Demo.cwd Demo.secure_filename
              Scenes.right_key "ceo@2025" Demo.with_ann _
              demo_with_ann_reachable H Hb) as [Hyes _].
  split; [exact demo_with_ann_reachable|]. split; [exact H|].
  exact (Hyes eq_refl).
Defined.

Lemma reachable_rows_trimmed_witness :
  reachable Demo.app_dir Demo.cwd Demo.secure_filename Demo.with_ann
  /\ employees (db Demo.with_ann) = Some (Demo.employees_of Demo.with_ann)
  /\ rows (Demo.employees_of Demo.with_ann) !! 1 = Some Scenes.ann_row
  /\ row_trimmed Scenes.ann_row.
Proof.
  assert (H : employees (db Demo.with_ann)
              = Some (Demo.employees_of Demo.with_ann))
    by (vm_compute; reflexivity).
  assert (He : rows (Demo.employees_of Demo.with_ann) !! 1
               = Some Scenes.ann_row) by (vm_compute; reflexivity).
  split; [exact demo_with_ann_reachable|]. split; [exact H|].
  split; [exact He|].
  exact (reachable_rows_trimmed Demo.app_dir Demo.cwd Demo.secure_filename
           Demo.with_ann _ 1 _ demo_with_ann_reachable H He).
Defined.
Lemma create_employee_save_fails_witness :
  missing_fields (form Demo.ann) = []
  /\ attached Demo.ann Scenes.ann_photo
  /\ allowed_file (filename Scenes.ann_photo) = true
  /\ save_error Scenes.env_no_save
     = Some (WriteFails "No space left on device" 5)
  /\ serve (create_employee Demo.app_dir Demo.cwd Demo.secure_filename
              Scenes.env_no_save Demo.ann) Demo.booted
     = (failed 500 "No space left on device",
        World (db Demo.booted)
          (<[Path.realpath Demo.cwd
               (photo_save_path Demo.app_dir Demo.secure_filename
                  Scenes.env_no_save Demo.ann Scenes.ann_photo)
             := PyStr.take 5 (content Scenes.ann_photo)]>
             (fs Demo.booted)))
  /\ save_error Scenes.env_no_open = Some (OpenFails "Permission denied")
  /\ serve (create_employee Demo.app_dir Demo.cwd Demo.secure_filename
              Scenes.env_no_open Demo.ann) Demo.booted
     = (failed 500 "Permission denied", Demo.booted).
Proof.
  assert (H1 : missing_fields (form Demo.ann) = []) by reflexivity.
  assert (H2 : attached Demo.ann Scenes.ann_photo)
    by (split; [reflexivity|discriminate]).
  assert (H3 : allowed_file (filename Scenes.ann_photo) = true)
    by reflexivity.
  split; [exact H1|]. split; [exact H2|]. split; [exact H3|].
  split; [reflexivity|]. split.
  - exact (proj1 (create_employee_save_fails Demo.app_dir Demo.cwd
                    Demo.secure_filename Scenes.env_no_save Demo.ann
                    Scenes.ann_photo _ Demo.booted H1 H2 H3 eq_refl)).
  - split; [reflexivity|].
    exact (proj1 (create_employee_save_fails Demo.app_dir Demo.cwd
                    Demo.secure_filename Scenes.env_no_open Demo.ann
                    Scenes.ann_photo _ Demo.booted H1 H2 H3 eq_refl)).
Defined.


Lemma allowed_file_last_dot_witness :
  PyStr.has_char "."%char "PNG" = false
  /\ allowed_file "PNG" = false
  /\ (allowed_file ("holiday.tar" +:+ "." +:+ "PNG") = true
      <-> PyStr.lower "PNG" ∈ ALLOWED_EXTENSIONS).
Proof.
  split; [reflexivity|].
  exact (allowed_file_last_dot "holiday.tar" "PNG" eq_refl).
Defined.

Lemma index_behaviour_witness :
  lookup_file Demo.cwd (fs Demo.with_ann)
    (Path.join Demo.app_dir "index.html") = None
  /\ exists text,
       body (serve (index Demo.app_dir Demo.cwd) Demo.with_ann).1
       = Text text.
Proof.
  assert (H : lookup_file Demo.cwd (fs Demo.with_ann)
                (Path.join Demo.app_dir "index.html") = None)
    by (vm_compute; reflexivity).
  destruct (index_behaviour Demo.app_dir Demo.cwd Demo.with_ann)
    as (_ & _ & _ & Hnone).
  split; [exact H|exact (Hnone H)].
Defined.

Lemma demo_photo_name :
  photo_name Demo.secure_filename Demo.env Demo.ann Scenes.ann_photo
  = "R1_1700000000.png".
Proof. vm_compute. reflexivity. Defined.

Lemma demo_photo_name_plain :
  plain_name
    (photo_name Demo.secure_filename Demo.env Demo.ann Scenes.ann_photo).
Proof.
  rewrite demo_photo_name. repeat split; try discriminate.
Defined.


Lemma create_employee_writes_in_uploads_witness :
  plain_name
    (photo_name Demo.secure_filename Demo.env Demo.ann Scenes.ann_photo)
  /\ Path.within Demo.cwd (UPLOAD_DIR Demo.app_dir)
       (photo_save_path Demo.app_dir Demo.secure_filename Demo.env
          Demo.ann Scenes.ann_photo) = true.
Proof.
  destruct (create_employee_writes_in_uploads Demo.app_dir Demo.cwd
              Demo.secure_filename Demo.env Demo.ann Demo.booted)
    as (_ & _ & Hin).
  split; [exact demo_photo_name_plain|].
  exact (Hin Scenes.ann_photo demo_photo_name_plain).
Defined.
Lemma routes_before_init_db_witness :
  db Demo.start = empty_database
  /\ serve list_employees Demo.start = (internal_server_error, Demo.start)
  /\ serve (check_key Scenes.right_key) Demo.start
     = (internal_server_error, Demo.start)
  /\ (serve (create_employee Demo.app_dir Demo.cwd Demo.secure_filename
               Demo.env Demo.dan) Demo.start).1
     = failed 500 "no such table: employees".
Proof.
  destruct (routes_before_init_db Demo.app_dir Demo.cwd
              Demo.secure_filename Demo.env Demo.dan 1 Demo.start eq_refl)
    as (Hlist & _ & _ & _ & Hcreate).
  destruct (routes_before_init_db Demo.app_dir Demo.cwd
              Demo.secure_filename Demo.env Scenes.right_key 1 Demo.start
              eq_refl)
    as (_ & _ & _ & Hkey & _).
  split; [reflexivity|]. split; [exact Hlist|]. split; [exact Hkey|].
  apply Hcreate; [reflexivity|exact I].
Defined.
